(** * Integration test harness of the exposure-notifications server

    A shallow embedding of [internal/integration/integration.go]: the
    client-side transport shim ([prefixRoundTripper.RoundTrip]) and the
    harness set-up ([NewTestServer], [testServer], [testClient],
    [startAuthorizedApp], [createSignatureInfo]).

    Go pointers are locations of an explicit store, [tb.Fatal] is an abort
    of the calling goroutine, and every call into another package leaves an
    event in a trace. *)

From Stdlib Require Import ZArith Ascii String.
From stdpp Require Import base tactics option list strings gmap.

#[local] Set Warnings "-clear-no-such-hyp".

Local Open Scope Z_scope.
Local Open Scope string_scope.
Local Open Scope list_scope.

(* ===================================================================== *)
(** ** The transport shim *)
(* ===================================================================== *)

Module Transport.

(** [net/url.URL], the fields a request target is made of. *)
Record URL : Type := mkURL {
  Scheme   : string;
  Opaque   : string;
  Host     : string;
  Path     : string;
  RawQuery : string;
  Fragment : string;
}.

(** [*url.URL]: a location of the store; nil is a location that the store
    does not map. *)
Definition URLPtr : Type := nat.

(** [net/http.Request]; [r.URL] is a pointer, so the URL is shared with
    whoever built the request. *)
Record Request : Type := mkRequest {
  Method  : string;
  ReqURL  : URLPtr;
  Header  : list (string * string);
  Body    : string;
}.

(** The two fields [RoundTrip] assigns. *)
Inductive Field : Type := FScheme | FHost.

(** One executed assignment [u.f = v]. *)
Record Store : Type := mkStore {
  st_loc : URLPtr;
  st_field : Field;
  st_val : string;
}.

(** The memory a round trip runs in: the URL objects, and the assignments
    executed so far (oldest first). *)
Record Mem : Type := mkMem {
  urls   : gmap nat URL;
  stores : list Store;
}.

(** A computation over [Mem]; [None] is a nil-pointer panic. *)
Definition Exec (A : Type) : Type := Mem → option (A * Mem).

#[global] Instance exec_ret : MRet Exec := λ A a m, Some (a, m).

#[global] Instance exec_bind : MBind Exec := λ A B k c m,
  match c m with
  | Some (a, m') => k a m'
  | None => None
  end.

(** [u.Scheme], [u.Host] read through the pointer. *)
Definition load (f : Field) (u : URLPtr) : Exec string :=
  λ m, match urls m !! u with
       | Some o => Some (match f with FScheme => Scheme o | FHost => Host o end, m)
       | None => None
       end.

Definition set_field (f : Field) (v : string) (o : URL) : URL :=
  match f with
  | FScheme => mkURL v (Opaque o) (Host o) (Path o) (RawQuery o) (Fragment o)
  | FHost => mkURL (Scheme o) (Opaque o) v (Path o) (RawQuery o) (Fragment o)
  end.

(** [u.Scheme = v], [u.Host = v] written through the pointer. *)
Definition assign (f : Field) (u : URLPtr) (v : string) : Exec unit :=
  λ m, match urls m !! u with
       | Some o => Some (tt, mkMem (<[u := set_field f v o]> (urls m))
                                   (stores m ++ [mkStore u f v]))
       | None => None
       end.

Section Shim.

(** What a round trip gives back: Go's pair of a response and an error. *)
Variable Result : Type.

(** [http.RoundTripper]: the interface has the one method. *)
Definition RoundTripper : Type := Request → Mem → Result * Mem.

Record prefixRoundTripper : Type := mkPrefixRoundTripper {
  addr : string;
  rt   : RoundTripper;
}.

(** [p.rt.RoundTrip(r)] *)
Definition delegate (t : RoundTripper) (r : Request) : Exec Result :=
  λ m, Some (t r m).

(** [func (p *prefixRoundTripper) RoundTrip(r *http.Request)] *)
Definition RoundTrip (p : prefixRoundTripper) (r : Request) : Exec Result :=
  let u := ReqURL r in
  scheme ← load FScheme u;
  (if decide (scheme = "") then assign FScheme u "http" else mret ());;
  host ← load FHost u;
  (if decide (host = "") then assign FHost u (addr p) else mret ());;
  delegate (rt p) r.

End Shim.

Arguments addr {Result} _.
Arguments rt {Result} _.
Arguments mkPrefixRoundTripper {Result} _ _.
Arguments RoundTrip {Result} _ _ _.
Arguments delegate {Result} _ _ _.

End Transport.

(* ===================================================================== *)
(** ** The harness set-up *)
(* ===================================================================== *)

Module Harness.

(** *** Values of the Go standard library *)

(** Go's [error]; [None] below is the nil error. *)
Definition error : Type := string.

(** [time.Duration]: a count of nanoseconds.  Every duration of this file
    is a constant product far inside int64. *)
Definition Duration : Type := Z.

(** [time.Time]: an instant, in nanoseconds; [t.Add(d)]. *)
Definition Time : Type := Z.

(** [context.Context]: the background context, or one made cancellable by
    [context.WithCancel]; the number names its cancellation token. *)
Inductive Context : Type :=
| Background
| WithCancelOf (parent : Context) (token : nat).

(** *** Records of the repository's model packages *)

(** [authorizedappmodel.AuthorizedApp], the fields the harness sets; the
    two [map[...]struct{}] are sets. *)
Record AuthorizedApp : Type := mkAuthorizedApp {
  AppPackageName : string;
  AllowedRegions : gset string;
  AllowedHealthAuthorityIDs : gset Z;
  BypassHealthAuthorityVerification : bool;
}.

(** [exportmodel.SignatureInfo], the fields the harness sets. *)
Record SignatureInfo : Type := mkSignatureInfo {
  SigningKey : string;
  SigningKeyVersion : string;
  SigningKeyID : string;
}.

(** [exportmodel.ExportConfig], the fields the harness sets.  A Go slice is
    nil ([None]) or a list, possibly empty ([Some []]). *)
Record ExportConfig : Type := mkExportConfig {
  BucketName : string;
  Period : Duration;
  OutputRegion : string;
  From : Time;
  Thru : Time;
  SignatureInfoIDs : option (list Z);
}.

(** *** Handles and the runtime environment *)

(** [*database.DB], [*authorizedapp.MemoryProvider]: locations of the
    world's stores. *)
Definition DBRef : Type := nat.
Definition ProviderRef : Type := nat.

(** The in-memory blob store and the no-op key and secret managers carry
    nothing the harness looks at. *)
Inductive Blobstore : Type := MemoryBlobstore.
Inductive KeyManager : Type := NoopKeyManager.
Inductive SecretManager : Type := NoopSecretManager.

(** [serverenv.ServerEnv]: every capability is there or absent. *)
Record ServerEnv : Type := mkServerEnv {
  env_authorizedAppProvider : option ProviderRef;
  env_blobstore : option Blobstore;
  env_database : option DBRef;
  env_keyManager : option KeyManager;
  env_secretManager : option SecretManager;
}.

(** *** Handlers, the mux, the server and the client *)

(** [cleanup.Config], [export.Config], [federationin.Config] and
    [publish.Config], the fields the harness sets. *)
Record CleanupConfig : Type := mkCleanupConfig {
  cleanup_Timeout : Duration;
  cleanup_TTL : Duration;
}.

Record ExportServerConfig : Type := mkExportServerConfig {
  CreateTimeout : Duration;
  WorkerTimeout : Duration;
  MinRecords : Z;
  PaddingRange : Z;
  MaxRecords : Z;
  export_TruncateWindow : Duration;
  MinWindowAge : Duration;
  export_TTL : Duration;
}.

Record FederationInConfig : Type := mkFederationInConfig {
  federationin_Timeout : Duration;
  federationin_TruncateWindow : Duration;
}.

Record PublishConfig : Type := mkPublishConfig {
  MaxKeysOnPublish : Z;
  MaxSameStartIntervalKeys : Z;
  MaxIntervalAge : Duration;
  CreatedAtTruncateWindow : Duration;
  ReleaseSameDayKeys : bool;
}.

(** [*export.Server] *)
Record ExportServer : Type := mkExportServer {
  es_config : ExportServerConfig;
  es_env : ServerEnv;
}.

(** [http.Handler], as the values the harness mounts: one constructor per
    subsystem handler, and the wrapper of [http.StripPrefix]. *)
Inductive Handler : Type :=
| CleanupExportHandler (cfg : CleanupConfig) (env : ServerEnv)
| CleanupExposureHandler (cfg : CleanupConfig) (env : ServerEnv)
| ExportRoutes (s : ExportServer) (ctx : Context)
| FederationInHandler (env : ServerEnv) (cfg : FederationInConfig)
| PublishHandler (ctx : Context) (cfg : PublishConfig) (env : ServerEnv)
| StripPrefix (prefix : string) (h : Handler).

(** [*http.ServeMux]: the registered patterns with their handlers, in the
    order of registration. *)
Definition ServeMux : Type := list (string * Handler).

(** [*server.Server]: the listener is bound when the server exists. *)
Record Server : Type := mkServer {
  srv_addr : string;
}.

(** The closure of the one [go] statement: what the goroutine captured. *)
Record Goroutine : Type := mkGoroutine {
  g_srv : Server;
  g_ctx : Context;
  g_mux : ServeMux;
}.

(** A function handed to [tb.Cleanup]: the [stop] of a cancellable
    context, or the closing of the connection that the test-database
    helper registers for itself. *)
Inductive Cleanup : Type :=
| CancelToken (token : nat)
| HelperCloseDatabase (db : DBRef).

(** What the test was told: [tb.Error], [tb.Fatal]. *)
Inductive TBReport : Type :=
| TBError (e : error)
| TBFatal (e : error).

(** *** The world *)

(** The calls into other packages that can fail. *)
Inductive Step : Type :=
| SNewMemoryProvider | SNewMemory | SNewTestDatabase | SKeysNewNoop
| SSecretsNewNoop | SNewExportHandler | SNewExposureHandler
| SExportNewServer | SPublishNewHandler | SServerNew
| SAdd | SAddSignatureInfo | SAddExportConfig
| SServeHTTPHandler.

#[global] Instance Step_eq_dec : EqDecision Step.
Proof. solve_decision. Defined.

(** The calls, in the order the calling goroutine makes them. *)
Inductive Event : Type :=
| EvNewMemoryProvider
| EvNewMemory
| EvNewTestDatabase
| EvKeysNewNoop
| EvSecretsNewNoop
| EvServerenvNew
| EvNewServeMux
| EvNewExportHandler
| EvNewExposureHandler
| EvExportNewServer
| EvExportRoutes
| EvFederationInNewHandler
| EvPublishNewHandler
| EvHandle (pattern : string)
| EvServerNew
| EvWithCancel (token : nat)
| EvGoServe (g : Goroutine)
| EvNewClient (addr : string)
| EvAdd (p : ProviderRef) (app : AuthorizedApp)
| EvAddSignatureInfo (db : DBRef) (si : SignatureInfo)
| EvTimeNow
| EvAddExportConfig (db : DBRef) (ec : ExportConfig)
| EvEnvCleanup
| EvDatabaseClose (db : DBRef).

(** A test database: the connection, and the tables the harness and the
    handlers it mounts care about. *)
Record Database : Type := mkDatabase {
  db_closed : bool;
  db_AuthorizedApp : list AuthorizedApp;
  db_SignatureInfo : list SignatureInfo;
  db_ExportConfig : list ExportConfig;
}.

Record World : Type := mkWorld {
  (** the surroundings: which calls fail and with what error, what the
      clock reads at its n-th reading, the address the next listener gets *)
  w_failing : Step → option error;
  w_clock : nat → Time;
  w_ephemeral : string;
  (** the state *)
  w_ticks : nat;
  w_trace : list Event;
  w_dbs : gmap nat Database;
  w_providers : gmap nat (gmap string AuthorizedApp);
  w_tokens : gmap nat bool;
  w_cleanups : list Cleanup;
  w_goroutines : list Goroutine;
  w_reports : list TBReport;
}.

Definition set_ticks (n : nat) (w : World) : World :=
  mkWorld (w_failing w) (w_clock w) (w_ephemeral w) n (w_trace w) (w_dbs w)
    (w_providers w) (w_tokens w) (w_cleanups w) (w_goroutines w) (w_reports w).
Definition set_trace (t : list Event) (w : World) : World :=
  mkWorld (w_failing w) (w_clock w) (w_ephemeral w) (w_ticks w) t (w_dbs w)
    (w_providers w) (w_tokens w) (w_cleanups w) (w_goroutines w) (w_reports w).
Definition set_dbs (d : gmap nat Database) (w : World) : World :=
  mkWorld (w_failing w) (w_clock w) (w_ephemeral w) (w_ticks w) (w_trace w) d
    (w_providers w) (w_tokens w) (w_cleanups w) (w_goroutines w) (w_reports w).
Definition set_providers (p : gmap nat (gmap string AuthorizedApp)) (w : World) : World :=
  mkWorld (w_failing w) (w_clock w) (w_ephemeral w) (w_ticks w) (w_trace w) (w_dbs w)
    p (w_tokens w) (w_cleanups w) (w_goroutines w) (w_reports w).
Definition set_tokens (k : gmap nat bool) (w : World) : World :=
  mkWorld (w_failing w) (w_clock w) (w_ephemeral w) (w_ticks w) (w_trace w) (w_dbs w)
    (w_providers w) k (w_cleanups w) (w_goroutines w) (w_reports w).
Definition set_cleanups (c : list Cleanup) (w : World) : World :=
  mkWorld (w_failing w) (w_clock w) (w_ephemeral w) (w_ticks w) (w_trace w) (w_dbs w)
    (w_providers w) (w_tokens w) c (w_goroutines w) (w_reports w).
Definition set_goroutines (g : list Goroutine) (w : World) : World :=
  mkWorld (w_failing w) (w_clock w) (w_ephemeral w) (w_ticks w) (w_trace w) (w_dbs w)
    (w_providers w) (w_tokens w) (w_cleanups w) g (w_reports w).
Definition set_reports (r : list TBReport) (w : World) : World :=
  mkWorld (w_failing w) (w_clock w) (w_ephemeral w) (w_ticks w) (w_trace w) (w_dbs w)
    (w_providers w) (w_tokens w) (w_cleanups w) (w_goroutines w) r.

(** A location no store maps yet. *)
Definition new_ref {V} (m : gmap nat V) : nat := fresh (dom m).

(** *** The monad of the calling goroutine *)

(** A call returns, or the goroutine exits ([tb.Fatal] ends in
    [runtime.Goexit]), or it panics. *)
Inductive Outcome (A : Type) : Type :=
| Ret (a : A)
| Exit
| Panic (msg : string).
Arguments Ret {A} _.
Arguments Exit {A}.
Arguments Panic {A} _.

Definition M (A : Type) : Type := World → Outcome A * World.

#[global] Instance M_ret : MRet M := λ A a w, (Ret a, w).

#[global] Instance M_bind : MBind M := λ A B k c w,
  match c w with
  | (Ret a, w') => k a w'
  | (Exit, w') => (Exit, w')
  | (Panic msg, w') => (Panic msg, w')
  end.

(** Read the world; change the world. *)
Definition reads {A} (f : World → A) : M A := λ w, (Ret (f w), w).
Definition modify (f : World → World) : M unit := λ w, (Ret (), f w).

Definition emit (e : Event) : M unit :=
  modify (λ w, set_trace (w_trace w ++ [e]) w).

(** Does this call fail, this time? *)
Definition failing (s : Step) : M (option error) :=
  reads (λ w, w_failing w s).

Definition panic {A} (msg : string) : M A := λ w, (Panic msg, w).

(** Go's [(value, error)] results. *)
Inductive Res (A : Type) : Type :=
| Good (a : A)
| Bad (e : error).
Arguments Good {A} _.
Arguments Bad {A} _.

(** [testing.TB] *)
Module tb.

(** [tb.Helper] only marks the caller for the test log. *)
Definition Helper : M unit := mret ().

Definition Fatal {A} (e : error) : M A :=
  λ w, (Exit, set_reports (w_reports w ++ [TBFatal e]) w).

Definition Error (e : error) : M unit :=
  modify (λ w, set_reports (w_reports w ++ [TBError e]) w).

Definition Cleanup (f : Cleanup) : M unit :=
  modify (λ w, set_cleanups (w_cleanups w ++ [f]) w).

End tb.

(** [if err != nil { tb.Fatal(err) }] after a call with two results. *)
Definition or_fatal {A} (r : Res A) : M A :=
  match r with
  | Good a => mret a
  | Bad e => tb.Fatal e
  end.

(** [if err := ...; err != nil { tb.Fatal(err) }] *)
Definition fatal_if (err : option error) : M unit :=
  match err with
  | Some e => tb.Fatal e
  | None => mret ()
  end.

(** What holds of the outcome and of the world a computation ends in. *)
Definition wp {A} (c : M A) (Q : Outcome A → World → Prop) (w : World) : Prop :=
  Q (c w).1 (c w).2.

(** *** The packages the harness calls

    Their sources are other files of the repository; each is modelled by
    what the harness relies on. *)

Module authorizedapp.

(** Modelled from the spec: [authorizedapp.NewMemoryProvider], the
    in-memory authorized-application registry of the Infrastructure
    Provider Set; a new registry holds nothing.  (The harness passes a nil
    configuration.) *)
Definition NewMemoryProvider (ctx : Context) : M (Res ProviderRef) :=
  emit EvNewMemoryProvider;;
  err ← failing SNewMemoryProvider;
  match err with
  | Some e => mret (Bad e)
  | None =>
      p ← reads (λ w, new_ref (w_providers w));
      modify (λ w, set_providers (<[p := ∅]> (w_providers w)) w);;
      mret (Good p)
  end.

(** Modelled from the spec: [MemoryProvider.Add]; the registry owns the
    authorized applications, one per application identifier. *)
Definition Add (p : ProviderRef) (ctx : Context) (app : AuthorizedApp)
    : M (option error) :=
  emit (EvAdd p app);;
  err ← failing SAdd;
  match err with
  | Some e => mret (Some e)
  | None =>
      modify (λ w, set_providers
                     (alter (insert (AppPackageName app) app) p (w_providers w)) w);;
      mret None
  end.

End authorizedapp.

Module storage.

(** Modelled from the spec: [storage.NewMemory], the in-memory blob
    storage. *)
Definition NewMemory (ctx : Context) : M (Res Blobstore) :=
  emit EvNewMemory;;
  err ← failing SNewMemory;
  mret (from_option Bad (Good MemoryBlobstore) err).

End storage.

Module database.

Definition empty : Database := mkDatabase false [] [] [].

(** Modelled from the spec: [database.NewTestDatabase], the external
    test-database helper.  It owns the handle: it gives a disposable, open
    and empty store, fails the test itself when it cannot, and closes the
    connection at teardown. *)
Definition NewTestDatabase : M DBRef :=
  emit EvNewTestDatabase;;
  err ← failing SNewTestDatabase;
  match err with
  | Some e => tb.Fatal e
  | None =>
      db ← reads (λ w, new_ref (w_dbs w));
      modify (λ w, set_dbs (<[db := empty]> (w_dbs w)) w);;
      tb.Cleanup (HelperCloseDatabase db);;
      mret db
  end.

(** [DB.Close] *)
Definition Close (db : DBRef) : M unit :=
  emit (EvDatabaseClose db);;
  modify (λ w, set_dbs (alter (λ d, mkDatabase true (db_AuthorizedApp d)
                                      (db_SignatureInfo d) (db_ExportConfig d))
                              db (w_dbs w)) w).

End database.

Module keys.

(** Modelled from the spec: [keys.NewNoop], the no-op key manager. *)
Definition NewNoop (ctx : Context) : M (Res KeyManager) :=
  emit EvKeysNewNoop;;
  err ← failing SKeysNewNoop;
  mret (from_option Bad (Good NoopKeyManager) err).

End keys.

Module secrets.

(** Modelled from the spec: [secrets.NewNoop], the no-op secret manager. *)
Definition NewNoop (ctx : Context) : M (Res SecretManager) :=
  emit EvSecretsNewNoop;;
  err ← failing SSecretsNewNoop;
  mret (from_option Bad (Good NoopSecretManager) err).

End secrets.

Module serverenv.

Definition Option : Type := ServerEnv → ServerEnv.

Definition WithAuthorizedAppProvider (aa : ProviderRef) : Option :=
  λ e, mkServerEnv (Some aa) (env_blobstore e) (env_database e)
         (env_keyManager e) (env_secretManager e).
Definition WithBlobStorage (bs : Blobstore) : Option :=
  λ e, mkServerEnv (env_authorizedAppProvider e) (Some bs) (env_database e)
         (env_keyManager e) (env_secretManager e).
Definition WithDatabase (db : DBRef) : Option :=
  λ e, mkServerEnv (env_authorizedAppProvider e) (env_blobstore e) (Some db)
         (env_keyManager e) (env_secretManager e).
Definition WithKeyManager (km : KeyManager) : Option :=
  λ e, mkServerEnv (env_authorizedAppProvider e) (env_blobstore e) (env_database e)
         (Some km) (env_secretManager e).
Definition WithSecretManager (sm : SecretManager) : Option :=
  λ e, mkServerEnv (env_authorizedAppProvider e) (env_blobstore e) (env_database e)
         (env_keyManager e) (Some sm).

(** Modelled from the spec: [serverenv.New], the Runtime Environment
    Builder; it applies the bindings it is given to an environment with no
    capability and raises no error itself. *)
Definition New (ctx : Context) (opts : list Option) : M ServerEnv :=
  emit EvServerenvNew;;
  mret (foldl (λ e o, o e) (mkServerEnv None None None None None) opts).

Definition Database (e : ServerEnv) : option DBRef := env_database e.
Definition AuthorizedAppProvider (e : ServerEnv) : option ProviderRef :=
  env_authorizedAppProvider e.

(** Modelled from the spec: [ServerEnv.Cleanup], the teardown of the
    environment, which closes the database it holds. *)
Definition Cleanup (e : ServerEnv) : M unit :=
  emit EvEnvCleanup;;
  match env_database e with
  | Some db => database.Close db
  | None => mret ()
  end.

End serverenv.

Module cleanup.

(** Modelled from the spec: the constructors of the two cleanup handlers,
    each from its configuration and the environment. *)
Definition NewExportHandler (cfg : CleanupConfig) (env : ServerEnv) : M (Res Handler) :=
  emit EvNewExportHandler;;
  err ← failing SNewExportHandler;
  mret (from_option Bad (Good (CleanupExportHandler cfg env)) err).

Definition NewExposureHandler (cfg : CleanupConfig) (env : ServerEnv) : M (Res Handler) :=
  emit EvNewExposureHandler;;
  err ← failing SNewExposureHandler;
  mret (from_option Bad (Good (CleanupExposureHandler cfg env)) err).

End cleanup.

Module export.

(** Modelled from the spec: [export.NewServer] and [Server.Routes]. *)
Definition NewServer (cfg : ExportServerConfig) (env : ServerEnv) : M (Res ExportServer) :=
  emit EvExportNewServer;;
  err ← failing SExportNewServer;
  mret (from_option Bad (Good (mkExportServer cfg env)) err).

Definition Routes (s : ExportServer) (ctx : Context) : Handler := ExportRoutes s ctx.

End export.

Module federationin.

(** Modelled from the spec: [federationin.NewHandler]; it has no error
    result. *)
Definition NewHandler (env : ServerEnv) (cfg : FederationInConfig) : M Handler :=
  emit EvFederationInNewHandler;;
  mret (FederationInHandler env cfg).

End federationin.

Module publish.

(** Modelled from the spec: [publish.NewHandler]. *)
Definition NewHandler (ctx : Context) (cfg : PublishConfig) (env : ServerEnv)
    : M (Res Handler) :=
  emit EvPublishNewHandler;;
  err ← failing SPublishNewHandler;
  mret (from_option Bad (Good (PublishHandler ctx cfg env)) err).

End publish.

Module exportdatabase.

(** [exportdatabase.New(db)]: the export tables of a database; the handle
    may be nil. *)
Definition ExportDB : Type := option DBRef.
Definition New (db : option DBRef) : ExportDB := db.

Definition add_SignatureInfo (si : SignatureInfo) (d : Database) : Database :=
  mkDatabase (db_closed d) (db_AuthorizedApp d) (db_SignatureInfo d ++ [si])
    (db_ExportConfig d).

Definition add_ExportConfig (ec : ExportConfig) (d : Database) : Database :=
  mkDatabase (db_closed d) (db_AuthorizedApp d) (db_SignatureInfo d)
    (db_ExportConfig d ++ [ec]).

(** Modelled from the spec: [ExportDB.AddSignatureInfo], the insertion of
    one SigningKeyDescriptor into the persistent store. *)
Definition AddSignatureInfo (x : ExportDB) (ctx : Context) (si : SignatureInfo)
    : M (option error) :=
  match x with
  | None => panic "nil pointer dereference"
  | Some db =>
      emit (EvAddSignatureInfo db si);;
      err ← failing SAddSignatureInfo;
      match err with
      | Some e => mret (Some e)
      | None =>
          modify (λ w, set_dbs (alter (add_SignatureInfo si) db (w_dbs w)) w);;
          mret None
      end
  end.

(** Modelled from the spec: [ExportDB.AddExportConfig], the insertion of
    one ExportConfiguration into the persistent store. *)
Definition AddExportConfig (x : ExportDB) (ctx : Context) (ec : ExportConfig)
    : M (option error) :=
  match x with
  | None => panic "nil pointer dereference"
  | Some db =>
      emit (EvAddExportConfig db ec);;
      err ← failing SAddExportConfig;
      match err with
      | Some e => mret (Some e)
      | None =>
          modify (λ w, set_dbs (alter (add_ExportConfig ec) db (w_dbs w)) w);;
          mret None
      end
  end.

End exportdatabase.

(** [time] *)
Module time.

Definition Nanosecond : Duration := 1.
Definition Microsecond : Duration := 1000 * Nanosecond.
Definition Millisecond : Duration := 1000 * Microsecond.
Definition Second : Duration := 1000 * Millisecond.
Definition Minute : Duration := 60 * Second.
Definition Hour : Duration := 60 * Minute.

(** [time.Now()]: each call reads the clock once more. *)
Definition Now : M Time :=
  emit EvTimeNow;;
  t ← reads (λ w, w_clock w (w_ticks w));
  modify (λ w, set_ticks (S (w_ticks w)) w);;
  mret t.

(** [t.Add(d)] *)
Definition Add (t : Time) (d : Duration) : Time := t + d.

End time.

(** [context] *)
Module context.

(** [context.WithCancel(parent)]: the derived context and its [stop]. *)
Definition WithCancel (parent : Context) : M (Context * Cleanup) :=
  k ← reads (λ w, new_ref (w_tokens w));
  emit (EvWithCancel k);;
  modify (λ w, set_tokens (<[k := false]> (w_tokens w)) w);;
  mret (WithCancelOf parent k, CancelToken k).

(** [ctx.Err() != nil]: a context is done once its token, or one of an
    ancestor, is cancelled. *)
Fixpoint done (ctx : Context) (w : World) : bool :=
  match ctx with
  | Background => false
  | WithCancelOf parent k =>
      bool_decide (w_tokens w !! k = Some true) || done parent w
  end.

End context.

(** [net/http] *)
Module http.

Definition NewServeMux : M ServeMux := emit EvNewServeMux;; mret [].

(** [mux.Handle(pattern, handler)]; it panics on an empty pattern and on a
    pattern that is registered already. *)
Definition Handle (mux : ServeMux) (pattern : string) (h : Handler) : M ServeMux :=
  emit (EvHandle pattern);;
  if decide (pattern = "") then panic "http: invalid pattern"
  else if decide (pattern ∈ mux.*1) then panic "http: multiple registrations"
  else mret (mux ++ [(pattern, h)]).

(** A pattern that ends in a slash names a subtree: it matches every path
    it is a prefix of; any other pattern matches its own path only. *)
Fixpoint subtree (pattern : string) : bool :=
  match pattern with
  | EmptyString => false
  | String c EmptyString => bool_decide (c = "/"%char)
  | String _ rest => subtree rest
  end.

(** [http.Client], with the transport the harness gives it. *)
Record Client (Result : Type) : Type := mkClient {
  Timeout : Duration;
  Transport : Transport.prefixRoundTripper Result;
}.
Arguments mkClient {Result} _ _.
Arguments Timeout {Result} _.
Arguments Transport {Result} _.

End http.

Module server.

(** Modelled from the spec: [server.New(port)], the Listener; it binds an
    ephemeral local address, which can be asked for as soon as [New] has
    returned. *)
Definition New (port : string) : M (Res Server) :=
  emit EvServerNew;;
  err ← failing SServerNew;
  match err with
  | Some e => mret (Bad e)
  | None => a ← reads w_ephemeral; mret (Good (mkServer a))
  end.

Definition Addr (s : Server) : string := srv_addr s.

(** Modelled from the spec: [Server.ServeHTTPHandler(ctx, handler)], the
    serving loop.  It blocks ([None]) while it serves; it returns the error
    of a serving failure, and it returns nil once the context it was given
    is cancelled. *)
Definition ServeHTTPHandler (s : Server) (ctx : Context) (mux : ServeMux)
    (w : World) : option (option error) :=
  match w_failing w SServeHTTPHandler with
  | Some e => Some (Some e)
  | None => if context.done ctx w then Some None else None
  end.

End server.

(** *** Goroutines and teardown *)

(** The [go] statement: the closure is scheduled, the caller goes on. *)
Definition go (g : Goroutine) : M unit :=
  emit (EvGoServe g);;
  modify (λ w, set_goroutines (w_goroutines w ++ [g]) w).

(** [if err != nil { tb.Error(err) }] *)
Definition error_if (err : option error) : M unit :=
  match err with
  | Some e => tb.Error e
  | None => mret ()
  end.

(** The body of the goroutine [testServer] starts,
    [if err := srv.ServeHTTPHandler(stopCtx, mux); err != nil { tb.Error(err) }],
    run to its end in a world; [None] while the serving loop blocks. *)
Definition serve_body (g : Goroutine) (w : World) : option (Outcome unit * World) :=
  match server.ServeHTTPHandler (g_srv g) (g_ctx g) (g_mux g) w with
  | None => None
  | Some err => Some (error_if err w)
  end.

(** One registered cleanup function, called. *)
Definition run_cleanup (c : Cleanup) : M unit :=
  match c with
  | CancelToken k => modify (λ w, set_tokens (<[k := true]> (w_tokens w)) w)
  | HelperCloseDatabase db => database.Close db
  end.

(** The end of the test: [testing] calls the functions registered with
    [tb.Cleanup], last registered first. *)
Fixpoint run_cleanups (cs : list Cleanup) : M unit :=
  match cs with
  | [] => mret ()
  | c :: cs' => run_cleanup c;; run_cleanups cs'
  end.

Definition teardown : M unit :=
  cs ← reads w_cleanups;
  modify (set_cleanups []);;
  run_cleanups (rev cs).

(** *** The harness: [integration.go] *)

Definition exportDir : string := "my-bucket".

(** [func startAuthorizedApp(ctx, env, tb)] *)
Definition startAuthorizedApp (ctx : Context) (env : ServerEnv) : M unit :=
  match serverenv.AuthorizedAppProvider env with
  | None => panic "nil pointer dereference"
  | Some aa =>
      authorizedapp.Add aa ctx
        (mkAuthorizedApp "com.example.app" {["TEST"]} {[12345]} true)
      ≫= fatal_if
  end.

(** [func createSignatureInfo(ctx, db, exportPeriod, tb)] *)
Definition createSignatureInfo (ctx : Context) (db : option DBRef)
    (exportPeriod : Duration) : M unit :=
  let si := mkSignatureInfo "signer" "v1" "US" in
  exportdatabase.AddSignatureInfo (exportdatabase.New db) ctx si ≫= fatal_if;;
  from ← time.Now;
  thru ← time.Now;
  let ec := mkExportConfig exportDir exportPeriod "TEST"
              (time.Add from (-2 * time.Second))
              (time.Add thru (1 * time.Hour))
              (Some []) in
  exportdatabase.AddExportConfig (exportdatabase.New db) ctx ec ≫= fatal_if.

Section Client.

Context {Result : Type}.

(** [http.DefaultTransport] *)
Variable DefaultTransport : Transport.RoundTripper Result.

(** [EnServerClient], the client handed to the tests. *)
Record EnServerClient : Type := mkEnServerClient {
  client : http.Client Result;
}.

(** [func testClient(tb, srv)] *)
Definition testClient (srv : Server) : M (http.Client Result) :=
  let prt := Transport.mkPrefixRoundTripper (server.Addr srv) DefaultTransport in
  emit (EvNewClient (Transport.addr prt));;
  mret (http.mkClient (5 * time.Second) prt).

(** [func testServer(tb)] *)
Definition testServer : M (ServerEnv * http.Client Result) :=
  tb.Helper;;
  let ctx := Background in
  aa ← authorizedapp.NewMemoryProvider ctx ≫= or_fatal;
  bs ← storage.NewMemory ctx ≫= or_fatal;
  db ← database.NewTestDatabase;
  km ← keys.NewNoop ctx ≫= or_fatal;
  sm ← secrets.NewNoop ctx ≫= or_fatal;
  env ← serverenv.New ctx
          [serverenv.WithAuthorizedAppProvider aa;
           serverenv.WithBlobStorage bs;
           serverenv.WithDatabase db;
           serverenv.WithKeyManager km;
           serverenv.WithSecretManager sm];
  mux ← http.NewServeMux;
  let cleanupExportConfig :=
    mkCleanupConfig (10 * time.Minute) (336 * time.Hour) in
  cleanupExportHandler ← cleanup.NewExportHandler cleanupExportConfig env ≫= or_fatal;
  mux ← http.Handle mux "/cleanup-export" cleanupExportHandler;
  let cleanupExposureConfig :=
    mkCleanupConfig (10 * time.Minute) (336 * time.Hour) in
  cleanupExposureHandler ← cleanup.NewExposureHandler cleanupExposureConfig env ≫= or_fatal;
  mux ← http.Handle mux "/cleanup-exposure" cleanupExposureHandler;
  let exportConfig :=
    mkExportServerConfig (10 * time.Second) (10 * time.Second) 1 1 10000
      (1 * time.Second) (1 * time.Second) (336 * time.Hour) in
  exportServer ← export.NewServer exportConfig env ≫= or_fatal;
  mux ← http.Handle mux "/export/" (StripPrefix "/export" (export.Routes exportServer ctx));
  let federationInConfig :=
    mkFederationInConfig (10 * time.Minute) (1 * time.Hour) in
  federationInHandler ← federationin.NewHandler env federationInConfig;
  mux ← http.Handle mux "/federation-in" federationInHandler;
  let publishConfig :=
    mkPublishConfig 15 2 (360 * time.Hour) (1 * time.Second) true in
  publishHandler ← publish.NewHandler ctx publishConfig env ≫= or_fatal;
  mux ← http.Handle mux "/publish" publishHandler;
  srv ← server.New "" ≫= or_fatal;
  '(stopCtx, stop) ← context.WithCancel ctx;
  tb.Cleanup stop;;
  go (mkGoroutine srv stopCtx mux);;
  client ← testClient srv;
  mret (env, client).

(** [func NewTestServer(tb, ctx, exportPeriod)] *)
Definition NewTestServer (ctx : Context) (exportPeriod : Duration)
    : M (ServerEnv * EnServerClient * option DBRef) :=
  '(env, client) ← testServer;
  let db := serverenv.Database env in
  let enClient := mkEnServerClient client in
  startAuthorizedApp ctx env;;
  createSignatureInfo ctx db exportPeriod;;
  mret (env, enClient, db).

End Client.

(** *** Vocabulary of the properties *)

(** The calls of [NewTestServer] that can fail, in the order in which the
    program makes them. *)
Definition setup_steps : list Step :=
  [SNewMemoryProvider; SNewMemory; SNewTestDatabase; SKeysNewNoop;
   SSecretsNewNoop; SNewExportHandler; SNewExposureHandler; SExportNewServer;
   SPublishNewHandler; SServerNew; SAdd; SAddSignatureInfo; SAddExportConfig].

(** The first call of [l] that fails, with its error. *)
Fixpoint first_failure (f : Step → option error) (l : list Step)
    : option (Step * error) :=
  match l with
  | [] => None
  | s :: l' =>
      match f s with
      | Some e => Some (s, e)
      | None => first_failure f l'
      end
  end.

(** The step an event is the call of, for the calls that can fail. *)
Definition call_of (e : Event) : option Step :=
  match e with
  | EvNewMemoryProvider => Some SNewMemoryProvider
  | EvNewMemory => Some SNewMemory
  | EvNewTestDatabase => Some SNewTestDatabase
  | EvKeysNewNoop => Some SKeysNewNoop
  | EvSecretsNewNoop => Some SSecretsNewNoop
  | EvNewExportHandler => Some SNewExportHandler
  | EvNewExposureHandler => Some SNewExposureHandler
  | EvExportNewServer => Some SExportNewServer
  | EvPublishNewHandler => Some SPublishNewHandler
  | EvServerNew => Some SServerNew
  | EvAdd _ _ => Some SAdd
  | EvAddSignatureInfo _ _ => Some SAddSignatureInfo
  | EvAddExportConfig _ _ => Some SAddExportConfig
  | _ => None
  end.

(** The world in which no call fails, all else equal. *)
Definition never_failing (w : World) : World :=
  mkWorld (λ _, None) (w_clock w) (w_ephemeral w) (w_ticks w) (w_trace w)
    (w_dbs w) (w_providers w) (w_tokens w) (w_cleanups w) (w_goroutines w)
    (w_reports w).

(** The writes of fixture records; those of them that go to the database. *)
Definition is_seeding (e : Event) : bool :=
  match e with
  | EvAdd _ _ | EvAddSignatureInfo _ _ | EvAddExportConfig _ _ => true
  | _ => false
  end.

Definition is_database_write (e : Event) : bool :=
  match e with
  | EvAddSignatureInfo _ _ | EvAddExportConfig _ _ => true
  | _ => false
  end.

(** The listener exists from [server.New] on and serves from the [go]
    statement on. *)
Definition is_listener_start (e : Event) : bool :=
  match e with
  | EvServerNew | EvGoServe _ => true
  | _ => false
  end.

Definition is_client_construction (e : Event) : bool :=
  match e with
  | EvNewClient _ => true
  | _ => false
  end.

(** In [l], everything that satisfies [P] comes strictly before everything
    that satisfies [Q]. *)
Definition precedes {A} (P Q : A → bool) (l : list A) : Prop :=
  ∀ i j x y, l !! i = Some x → l !! j = Some y →
             P x = true → Q y = true → (i < j)%nat.

(** The calls that close a database. *)
Definition is_closing (e : Event) : bool :=
  match e with
  | EvEnvCleanup | EvDatabaseClose _ => true
  | _ => false
  end.

(** Is the handler wrapped by [http.StripPrefix]? *)
Definition strips (h : Handler) : bool :=
  match h with
  | StripPrefix _ _ => true
  | _ => false
  end.

End Harness.

(* ===================================================================== *)
(** ** Sample inputs *)
(* ===================================================================== *)

Module Samples.
Import Transport Harness.

(** A request for "https" with no host, and a URL with neither. *)
Definition target : URL := mkURL "https" "" "" "/publish" "" "".
Definition relative : URL := mkURL "" "" "" "/export/index.txt" "" "".
Definition memory : Mem := mkMem {[ 7%nat := target; 8%nat := relative ]} [].
Definition publish_request : Request := mkRequest "POST" 7%nat [] "{}".

(** An underlying transport that answers with the scheme and the host it
    was asked to reach. *)
Definition wire : RoundTripper (string * string) :=
  λ r m, (from_option (λ u, (Scheme u, Host u)) ("", "") (urls m !! ReqURL r), m).
Definition shim : prefixRoundTripper (string * string) :=
  mkPrefixRoundTripper "127.0.0.1:8080" wire.

(** A fresh test process in which nothing fails; the clock advances by
    one nanosecond at each reading. *)
Definition quiet : World :=
  mkWorld (λ _, None) (λ n, 1600000000000000000 + Z.of_nat n) "127.0.0.1:8080"
    0 [] ∅ ∅ ∅ [] [] [].

(** The same, but the listener cannot be created, or the serving loop
    fails. *)
Definition no_listener : World :=
  mkWorld (λ s, match s with SServerNew => Some "listen: address in use" | _ => None end)
    (w_clock quiet) "127.0.0.1:8080" 0 [] ∅ ∅ ∅ [] [] [].


End Samples.

(* ===================================================================== *)
(** ** Further vocabulary and sample inputs *)
(* ===================================================================== *)

Module More.
Import Transport Harness Samples.

(** The environment a mounted handler was built from. *)
Fixpoint handler_env (h : Handler) : ServerEnv :=
  match h with
  | CleanupExportHandler _ env => env
  | CleanupExposureHandler _ env => env
  | ExportRoutes s _ => es_env s
  | FederationInHandler env _ => env
  | PublishHandler _ _ env => env
  | StripPrefix _ h' => handler_env h'
  end.

(** A request for a path only. *)
Definition export_request : Request := mkRequest "GET" 8%nat [] "".

(** A request whose URL is nil: location 9 is not in [memory]. *)
Definition nil_request : Request := mkRequest "GET" 9%nat [] "".

(** Worlds in which one of the fixture writes fails. *)
Definition no_app : World :=
  mkWorld (λ s, match s with SAdd => Some "add: refused" | _ => None end)
    (w_clock quiet) "127.0.0.1:8080" 0 [] ∅ ∅ ∅ [] [] [].

Definition no_signature_info : World :=
  mkWorld (λ s, match s with
                | SAddSignatureInfo => Some "insert: refused"
                | _ => None
                end)
    (w_clock quiet) "127.0.0.1:8080" 0 [] (<[3%nat := database.empty]> ∅) ∅ ∅ [] [] [].

Definition no_export_config : World :=
  mkWorld (λ s, match s with
                | SAddExportConfig => Some "insert: refused"
                | _ => None
                end)
    (w_clock quiet) "127.0.0.1:8080" 0 [] (<[3%nat := database.empty]> ∅) ∅ ∅ [] [] [].

(** A world with a database in it, in which nothing fails. *)
Definition with_database : World :=
  mkWorld (λ _, None) (w_clock quiet) "127.0.0.1:8080" 0 []
    (<[3%nat := database.empty]> ∅) ∅ ∅ [] [] [].

End More.

(* ===================================================================== *)
(** ** Properties of the transport shim *)
(* ===================================================================== *)

Module ShimSpec.
Import Transport Samples.

Section Facts.

Context {Result : Type}.
Implicit Types (p : prefixRoundTripper Result) (r : Request) (m : Mem) (u : URL).

Lemma exec_bind_run {A B} (c : Exec A) (k : A → Exec B) m :
  (c ≫= k) m = match c m with Some (a, m') => k a m' | None => None end.
Proof. reflexivity. Qed.

Lemma load_run f l m u :
  urls m !! l = Some u →
  load f l m = Some (match f with FScheme => Scheme u | FHost => Host u end, m).
Proof. intros H. unfold load. by rewrite H. Qed.

Lemma assign_run f l v m u :
  urls m !! l = Some u →
  assign f l v m
  = Some ((), mkMem (<[l := set_field f v u]> (urls m)) (stores m ++ [mkStore l f v])).
Proof. intros H. unfold assign. by rewrite H. Qed.


(** The memory [RoundTrip] hands to the underlying transport, in each of
    the four cases. *)
Lemma RoundTrip_run p r m u :
  urls m !! ReqURL r = Some u →
  RoundTrip p r m =
  Some (rt p r
    (if decide (Scheme u = "") then
       if decide (Host u = "") then
         mkMem (<[ReqURL r := set_field FHost (addr p) (set_field FScheme "http" u)]> (urls m))
               (stores m ++ [mkStore (ReqURL r) FScheme "http";
                             mkStore (ReqURL r) FHost (addr p)])
       else
         mkMem (<[ReqURL r := set_field FScheme "http" u]> (urls m))
               (stores m ++ [mkStore (ReqURL r) FScheme "http"])
     else
       if decide (Host u = "") then
         mkMem (<[ReqURL r := set_field FHost (addr p) u]> (urls m))
               (stores m ++ [mkStore (ReqURL r) FHost (addr p)])
       else m)).
Proof.
  intros H. unfold RoundTrip.
  rewrite exec_bind_run, (load_run _ _ _ _ H).
  destruct (decide (Scheme u = "")) as [Hs|Hs].
  - rewrite exec_bind_run, (assign_run _ _ _ _ _ H), exec_bind_run.
    unfold load; cbn [urls stores]. rewrite lookup_insert_eq. cbn [Host set_field].
    destruct (decide (Host u = "")) as [Hh|Hh].
    + rewrite exec_bind_run. unfold assign; cbn [urls stores].
      rewrite lookup_insert_eq, insert_insert_eq, <- app_assoc. reflexivity.
    + reflexivity.
  - rewrite exec_bind_run. cbn. rewrite exec_bind_run, (load_run _ _ _ _ H).
    destruct (decide (Host u = "")) as [Hh|Hh].
    + rewrite exec_bind_run, (assign_run _ _ _ _ _ H). reflexivity.
    + reflexivity.
Qed.



End Facts.



(** The shim on the wire: an "https" request without a host leaves for the
    listener's address, still as "https". *)
Example RoundTrip_https_no_host :
  fst <$> RoundTrip shim publish_request memory = Some ("https", "127.0.0.1:8080").
Proof. vm_compute. reflexivity. Qed.

End ShimSpec.

(* ===================================================================== *)
(** ** Properties of the harness set-up *)
(* ===================================================================== *)

Module HarnessSpec.
Import Harness.

(** *** Running the monad

    One equation per call, over a world given by its fields; a program is
    then run call by call, by the rules of [wp]. *)

Lemma bind_run {A B} (c : M A) (k : A → M B) w :
  (c ≫= k) w = match c w with
               | (Ret a, w') => k a w'
               | (Exit, w') => (Exit, w')
               | (Panic msg, w') => (Panic msg, w')
               end.
Proof. reflexivity. Qed.

Lemma wp_bind {A B} (c : M A) (k : A → M B) (Q : Outcome B → World → Prop) w :
  wp c (λ o w1, match o with
                | Ret a => wp (k a) Q w1
                | Exit => Q Exit w1
                | Panic msg => Q (Panic msg) w1
                end) w →
  wp (c ≫= k) Q w.
Proof.
  unfold wp. rewrite bind_run. destruct (c w) as [[x| |msg] w1]; auto.
Qed.

Lemma wp_ret {A} (x : A) (Q : Outcome A → World → Prop) w :
  Q (Ret x) w → wp (mret x) Q w.
Proof. auto. Qed.

Lemma wp_eq {A} (c : M A) (Q : Outcome A → World → Prop) w o w1 :
  c w = (o, w1) → Q o w1 → wp c Q w.
Proof. unfold wp. by intros ->. Qed.

Lemma wp_run {A} (c : M A) w r : wp c (λ o w', (o, w') = r) w → c w = r.
Proof. unfold wp. by destruct (c w). Qed.

Ltac unfold_M :=
  cbv beta iota zeta delta
    [mbind M_bind mret M_ret reads modify emit failing panic
     set_ticks set_trace set_dbs set_providers set_tokens set_cleanups
     set_goroutines set_reports from_option
     w_failing w_clock w_ephemeral w_ticks w_trace w_dbs w_providers w_tokens
     w_cleanups w_goroutines w_reports].

Ltac by_cases f s := unfold_M; destruct (f s); reflexivity.

Section Calls.

Variables (f : Step → option error) (c : nat → Time) (a : string) (n : nat)
  (t : list Event) (d : gmap nat Database)
  (p : gmap nat (gmap string AuthorizedApp)) (k : gmap nat bool)
  (cl : list Cleanup) (g : list Goroutine) (r : list TBReport).

Lemma Fatal_run {A} e :
  tb.Fatal (A:=A) e (mkWorld f c a n t d p k cl g r)
  = (Exit, mkWorld f c a n t d p k cl g (r ++ [TBFatal e])).
Proof. reflexivity. Qed.

Lemma Cleanup_run x :
  tb.Cleanup x (mkWorld f c a n t d p k cl g r)
  = (Ret (), mkWorld f c a n t d p k (cl ++ [x]) g r).
Proof. reflexivity. Qed.

Lemma NewMemoryProvider_run ctx :
  authorizedapp.NewMemoryProvider ctx (mkWorld f c a n t d p k cl g r)
  = (Ret (match f SNewMemoryProvider with
          | Some e => Bad e
          | None => Good (new_ref p)
          end),
     mkWorld f c a n (t ++ [EvNewMemoryProvider]) d
       (match f SNewMemoryProvider with
        | Some _ => p
        | None => <[new_ref p := ∅]> p
        end) k cl g r).
Proof. unfold authorizedapp.NewMemoryProvider. by_cases f SNewMemoryProvider. Qed.

Lemma NewMemory_run ctx :
  storage.NewMemory ctx (mkWorld f c a n t d p k cl g r)
  = (Ret (match f SNewMemory with Some e => Bad e | None => Good MemoryBlobstore end),
     mkWorld f c a n (t ++ [EvNewMemory]) d p k cl g r).
Proof. reflexivity. Qed.

Lemma NewTestDatabase_run :
  database.NewTestDatabase (mkWorld f c a n t d p k cl g r)
  = (match f SNewTestDatabase with
     | Some _ => Exit
     | None => Ret (new_ref d)
     end,
     mkWorld f c a n (t ++ [EvNewTestDatabase])
       (match f SNewTestDatabase with
        | Some _ => d
        | None => <[new_ref d := database.empty]> d
        end) p k
       (match f SNewTestDatabase with
        | Some _ => cl
        | None => cl ++ [HelperCloseDatabase (new_ref d)]
        end) g
       (match f SNewTestDatabase with
        | Some e => r ++ [TBFatal e]
        | None => r
        end)).
Proof.
  unfold database.NewTestDatabase, tb.Fatal, tb.Cleanup.
  by_cases f SNewTestDatabase.
Qed.

Lemma keys_NewNoop_run ctx :
  keys.NewNoop ctx (mkWorld f c a n t d p k cl g r)
  = (Ret (match f SKeysNewNoop with Some e => Bad e | None => Good NoopKeyManager end),
     mkWorld f c a n (t ++ [EvKeysNewNoop]) d p k cl g r).
Proof. reflexivity. Qed.

Lemma secrets_NewNoop_run ctx :
  secrets.NewNoop ctx (mkWorld f c a n t d p k cl g r)
  = (Ret (match f SSecretsNewNoop with Some e => Bad e | None => Good NoopSecretManager end),
     mkWorld f c a n (t ++ [EvSecretsNewNoop]) d p k cl g r).
Proof. reflexivity. Qed.

Lemma serverenv_New_run ctx opts :
  serverenv.New ctx opts (mkWorld f c a n t d p k cl g r)
  = (Ret (foldl (λ e o, o e) (mkServerEnv None None None None None) opts),
     mkWorld f c a n (t ++ [EvServerenvNew]) d p k cl g r).
Proof. reflexivity. Qed.

Lemma NewServeMux_run :
  http.NewServeMux (mkWorld f c a n t d p k cl g r)
  = (Ret [], mkWorld f c a n (t ++ [EvNewServeMux]) d p k cl g r).
Proof. reflexivity. Qed.

Lemma Handle_run mux pattern h :
  pattern ≠ "" → pattern ∉ mux.*1 →
  http.Handle mux pattern h (mkWorld f c a n t d p k cl g r)
  = (Ret (mux ++ [(pattern, h)]),
     mkWorld f c a n (t ++ [EvHandle pattern]) d p k cl g r).
Proof.
  intros H1 H2. unfold http.Handle. rewrite bind_run. unfold_M.
  by rewrite !decide_False.
Qed.

Lemma NewExportHandler_run cfg env :
  cleanup.NewExportHandler cfg env (mkWorld f c a n t d p k cl g r)
  = (Ret (match f SNewExportHandler with
          | Some e => Bad e
          | None => Good (CleanupExportHandler cfg env)
          end),
     mkWorld f c a n (t ++ [EvNewExportHandler]) d p k cl g r).
Proof. reflexivity. Qed.

Lemma NewExposureHandler_run cfg env :
  cleanup.NewExposureHandler cfg env (mkWorld f c a n t d p k cl g r)
  = (Ret (match f SNewExposureHandler with
          | Some e => Bad e
          | None => Good (CleanupExposureHandler cfg env)
          end),
     mkWorld f c a n (t ++ [EvNewExposureHandler]) d p k cl g r).
Proof. reflexivity. Qed.

Lemma export_NewServer_run cfg env :
  export.NewServer cfg env (mkWorld f c a n t d p k cl g r)
  = (Ret (match f SExportNewServer with
          | Some e => Bad e
          | None => Good (mkExportServer cfg env)
          end),
     mkWorld f c a n (t ++ [EvExportNewServer]) d p k cl g r).
Proof. reflexivity. Qed.

Lemma federationin_NewHandler_run env cfg :
  federationin.NewHandler env cfg (mkWorld f c a n t d p k cl g r)
  = (Ret (FederationInHandler env cfg),
     mkWorld f c a n (t ++ [EvFederationInNewHandler]) d p k cl g r).
Proof. reflexivity. Qed.

Lemma publish_NewHandler_run ctx cfg env :
  publish.NewHandler ctx cfg env (mkWorld f c a n t d p k cl g r)
  = (Ret (match f SPublishNewHandler with
          | Some e => Bad e
          | None => Good (PublishHandler ctx cfg env)
          end),
     mkWorld f c a n (t ++ [EvPublishNewHandler]) d p k cl g r).
Proof. reflexivity. Qed.

Lemma server_New_run port :
  server.New port (mkWorld f c a n t d p k cl g r)
  = (Ret (match f SServerNew with
          | Some e => Bad e
          | None => Good (mkServer a)
          end),
     mkWorld f c a n (t ++ [EvServerNew]) d p k cl g r).
Proof. unfold server.New. by_cases f SServerNew. Qed.

Lemma WithCancel_run parent :
  context.WithCancel parent (mkWorld f c a n t d p k cl g r)
  = (Ret (WithCancelOf parent (new_ref k), CancelToken (new_ref k)),
     mkWorld f c a n (t ++ [EvWithCancel (new_ref k)]) d p
       (<[new_ref k := false]> k) cl g r).
Proof. reflexivity. Qed.

Lemma go_run x :
  go x (mkWorld f c a n t d p k cl g r)
  = (Ret (), mkWorld f c a n (t ++ [EvGoServe x]) d p k cl (g ++ [x]) r).
Proof. reflexivity. Qed.

Lemma Add_run ref ctx app :
  authorizedapp.Add ref ctx app (mkWorld f c a n t d p k cl g r)
  = (Ret (f SAdd),
     mkWorld f c a n (t ++ [EvAdd ref app]) d
       (match f SAdd with
        | Some _ => p
        | None => alter (insert (AppPackageName app) app) ref p
        end) k cl g r).
Proof. unfold authorizedapp.Add. by_cases f SAdd. Qed.

Lemma AddSignatureInfo_run db ctx si :
  exportdatabase.AddSignatureInfo (Some db) ctx si (mkWorld f c a n t d p k cl g r)
  = (Ret (f SAddSignatureInfo),
     mkWorld f c a n (t ++ [EvAddSignatureInfo db si])
       (match f SAddSignatureInfo with
        | Some _ => d
        | None => alter (exportdatabase.add_SignatureInfo si) db d
        end) p k cl g r).
Proof. unfold exportdatabase.AddSignatureInfo. by_cases f SAddSignatureInfo. Qed.

Lemma AddExportConfig_run db ctx ec :
  exportdatabase.AddExportConfig (Some db) ctx ec (mkWorld f c a n t d p k cl g r)
  = (Ret (f SAddExportConfig),
     mkWorld f c a n (t ++ [EvAddExportConfig db ec])
       (match f SAddExportConfig with
        | Some _ => d
        | None => alter (exportdatabase.add_ExportConfig ec) db d
        end) p k cl g r).
Proof. unfold exportdatabase.AddExportConfig. by_cases f SAddExportConfig. Qed.

Lemma Now_run :
  time.Now (mkWorld f c a n t d p k cl g r)
  = (Ret (c n), mkWorld f c a (S n) (t ++ [EvTimeNow]) d p k cl g r).
Proof. reflexivity. Qed.

Lemma emit_run e :
  emit e (mkWorld f c a n t d p k cl g r)
  = (Ret (), mkWorld f c a n (t ++ [e]) d p k cl g r).
Proof. reflexivity. Qed.

End Calls.

Create Rewrite HintDb run.


(** A pattern is new to a mux whose patterns are known. *)
Ltac new_pattern :=
  first [ done
        | let H := fresh in
          intros H; cbn in H; repeat (apply elem_of_cons in H as [H|H]; [done|]);
          by apply elem_of_nil in H ].

(** The equation of the call at hand. *)
Ltac call :=
  first
    [ apply Fatal_run | apply Cleanup_run | apply NewMemoryProvider_run
    | apply NewMemory_run | apply NewTestDatabase_run | apply keys_NewNoop_run
    | apply secrets_NewNoop_run | apply serverenv_New_run | apply NewServeMux_run
    | apply NewExportHandler_run | apply NewExposureHandler_run
    | apply export_NewServer_run | apply federationin_NewHandler_run
    | apply publish_NewHandler_run | apply server_New_run | apply WithCancel_run
    | apply go_run | apply Add_run | apply AddSignatureInfo_run
    | apply AddExportConfig_run | apply Now_run | apply emit_run
    | apply Handle_run; new_pattern ].

(** The glue between the calls, which is all in this file. *)
Ltac glue :=
  cbv beta iota zeta delta
    [or_fatal fatal_if tb.Helper testClient testServer NewTestServer
     startAuthorizedApp createSignatureInfo
     serverenv.Database serverenv.AuthorizedAppProvider
     serverenv.WithAuthorizedAppProvider serverenv.WithBlobStorage
     serverenv.WithDatabase serverenv.WithKeyManager serverenv.WithSecretManager
     foldl env_authorizedAppProvider env_blobstore env_database env_keyManager
     env_secretManager exportdatabase.New
     export.Routes server.Addr srv_addr Transport.addr].

(** One step: enter a sequence, return, make a call, or ask the world
    whether the call at hand fails. *)
Ltac forward :=
  lazymatch goal with
  | |- wp (_ ≫= _) _ _ => apply wp_bind
  | |- wp (mret _) _ _ => apply wp_ret
  | |- wp (match ?x with _ => _ end) _ _ => fail
  | |- wp _ _ _ => eapply wp_eq; [call|]
  end; glue.

Ltac ask :=
  let e := fresh "e" in
  let E := fresh "E" in
  lazymatch goal with
  | |- wp (match (match ?x with _ => _ end) with _ => _ end) _ _ =>
      destruct x as [e|] eqn:E
  | |- wp (match ?x with _ => _ end) _ _ => destruct x as [e|] eqn:E
  | |- match (match ?x with _ => _ end) with _ => _ end =>
      destruct x as [e|] eqn:E
  end; glue.

Ltac explore failed succeeded :=
  repeat forward;
  first [ ask; [ repeat forward; failed | explore failed succeeded ]
        | succeeded ].

Lemma first_failure_None f l :
  first_failure f l = None ↔ ∀ s, s ∈ l → f s = None.
Proof.
  induction l as [|x l IH]; cbn.
  - split; [by intros _ s ?%elem_of_nil|done].
  - destruct (f x) eqn:E.
    + split; [done|]. intros H. specialize (H x (list_elem_of_here _ _)). congruence.
    + rewrite IH. split.
      * intros H s [->|?]%elem_of_cons; auto.
      * intros H s Hs. apply H. by apply list_elem_of_further.
Qed.

Lemma first_failure_Some f l s e :
  first_failure f l = Some (s, e) →
  ∃ pre post, l = pre ++ s :: post ∧ (∀ s', s' ∈ pre → f s' = None) ∧ f s = Some e.
Proof.
  induction l as [|x l IH]; cbn; [done|].
  destruct (f x) eqn:E.
  - intros [= -> ->]. exists [], l. split; [done|]. split; [|done].
    by intros s' ?%elem_of_nil.
  - intros (pre & post & -> & Hpre & Hs)%IH. exists (x :: pre), post.
    split; [done|]. split; [|done]. intros s' [->|?]%elem_of_cons; auto.
Qed.

Lemma new_ref_fresh {V} (m : gmap nat V) : m !! new_ref m = None.
Proof. apply not_elem_of_dom, is_fresh. Qed.

(** Which call fails first, from what the world has answered. *)
Ltac answer :=
  unfold setup_steps; cbn [first_failure];
  repeat match goal with
         | E : ?f ?s = _ |- context [?f ?s] => rewrite E
         end.

(** The run was cut short by the call that failed. *)
Ltac aborted :=
  cbv beta; right; eexists _, _;
  split; [answer; reflexivity|];
  split; [reflexivity|];
  cbn [w_failing w_clock w_ephemeral w_ticks w_trace w_dbs w_providers
       w_tokens w_cleanups w_goroutines w_reports];
  rewrite ?alter_insert_eq, <- ?app_assoc;
  split; [reflexivity|];
  split; [eexists _, _; split; [reflexivity|];
          split; [repeat apply prefix_cons; apply prefix_nil|];
          split; reflexivity|];
  split; [first [left; reflexivity | right; eexists; split; reflexivity]|];
  eexists; split; [first [symmetry; apply app_nil_r | reflexivity]|];
  repeat apply prefix_cons; apply prefix_nil.

(** The run went through. *)
Ltac returned :=
  cbv beta; left;
  split; [answer; reflexivity|];
  split; [reflexivity|];
  f_equal; rewrite ?alter_insert_eq, ?insert_empty, <- ?app_assoc; reflexivity.

Lemma precedes_app {A} (P Q : A → bool) (l1 l2 : list A) :
  Forall (λ x, Q x = false) l1 → Forall (λ x, P x = false) l2 →
  precedes P Q (l1 ++ l2).
Proof.
  intros H1 H2 i j x y Hi Hj HP HQ.
  destruct (decide (j < length l1)%nat) as [Hlt|Hge].
  - rewrite lookup_app_l in Hj by done.
    apply list_elem_of_lookup_2 in Hj.
    rewrite Forall_forall in H1. specialize (H1 _ Hj). congruence.
  - destruct (decide (i < length l1)%nat) as [Hlt'|Hge']; [lia|].
    rewrite lookup_app_r in Hi by lia.
    apply list_elem_of_lookup_2 in Hi.
    rewrite Forall_forall in H2. specialize (H2 _ Hi). congruence.
Qed.

(** Teardown never reports, never changes what fails, and never takes a
    cancellation back. *)
Lemma run_cleanup_frame c w :
  ∃ w', run_cleanup c w = (Ret (), w') ∧
        w_failing w' = w_failing w ∧ w_reports w' = w_reports w ∧
        (∀ k, w_tokens w !! k = Some true → w_tokens w' !! k = Some true).
Proof.
  destruct c as [k|db]; eexists; (split; [reflexivity|]); cbn; repeat split; auto.
  intros k' Hk'. destruct (decide (k' = k)) as [->|Hne].
  - by rewrite lookup_insert_eq.
  - by rewrite lookup_insert_ne.
Qed.

Lemma run_cleanups_frame cs w :
  ∃ w', run_cleanups cs w = (Ret (), w') ∧
        w_failing w' = w_failing w ∧ w_reports w' = w_reports w ∧
        (∀ k, w_tokens w !! k = Some true → w_tokens w' !! k = Some true).
Proof.
  revert w. induction cs as [|c cs IH]; intros w.
  - exists w. by repeat split.
  - destruct (run_cleanup_frame c w) as (w1 & Hc & Hf1 & Hr1 & Hk1).
    destruct (IH w1) as (w2 & Hcs & Hf2 & Hr2 & Hk2).
    exists w2. cbn [run_cleanups]. rewrite bind_run, Hc, Hcs.
    repeat split; [congruence|congruence|auto].
Qed.


Section Setup.

Context {Result : Type} (DT : Transport.RoundTripper Result).
Implicit Types (w : World) (ctx : Context) (P : Duration).

(** Every run of the set-up: either none of its calls fails, it returns
    and the world is as described; or a call fails, the first one that
    does ends the run through [tb.Fatal], and the run got no further
    than that call. *)
Lemma NewTestServer_outcomes w ctx P :
  let aa := new_ref (w_providers w) in
  let db := new_ref (w_dbs w) in
  let k := new_ref (w_tokens w) in
  let env := mkServerEnv (Some aa) (Some MemoryBlobstore) (Some db)
               (Some NoopKeyManager) (Some NoopSecretManager) in
  let mux :=
    [("/cleanup-export",
      CleanupExportHandler (mkCleanupConfig (10 * time.Minute) (336 * time.Hour)) env);
     ("/cleanup-exposure",
      CleanupExposureHandler (mkCleanupConfig (10 * time.Minute) (336 * time.Hour)) env);
     ("/export/",
      StripPrefix "/export"
        (ExportRoutes
           (mkExportServer
              (mkExportServerConfig (10 * time.Second) (10 * time.Second) 1 1 10000
                 (1 * time.Second) (1 * time.Second) (336 * time.Hour)) env)
           Background));
     ("/federation-in",
      FederationInHandler env (mkFederationInConfig (10 * time.Minute) (1 * time.Hour)));
     ("/publish",
      PublishHandler Background
        (mkPublishConfig 15 2 (360 * time.Hour) (1 * time.Second) true) env)] in
  let g := mkGoroutine (mkServer (w_ephemeral w)) (WithCancelOf Background k) mux in
  let app := mkAuthorizedApp "com.example.app" {["TEST"]} {[12345]} true in
  let si := mkSignatureInfo "signer" "v1" "US" in
  let ec := mkExportConfig "my-bucket" P "TEST"
              (time.Add (w_clock w (w_ticks w)) (-2 * time.Second))
              (time.Add (w_clock w (S (w_ticks w))) (1 * time.Hour)) (Some []) in
  let calls :=
    [EvNewMemoryProvider; EvNewMemory; EvNewTestDatabase; EvKeysNewNoop;
     EvSecretsNewNoop; EvServerenvNew; EvNewServeMux;
     EvNewExportHandler; EvHandle "/cleanup-export";
     EvNewExposureHandler; EvHandle "/cleanup-exposure";
     EvExportNewServer; EvHandle "/export/";
     EvFederationInNewHandler; EvHandle "/federation-in";
     EvPublishNewHandler; EvHandle "/publish";
     EvServerNew; EvWithCancel k; EvGoServe g; EvNewClient (w_ephemeral w);
     EvAdd aa app; EvAddSignatureInfo db si; EvTimeNow; EvTimeNow;
     EvAddExportConfig db ec] in
  wp (NewTestServer DT ctx P)
    (λ o w',
       (first_failure (w_failing w) setup_steps = None ∧
        o = Ret (env,
                 mkEnServerClient
                   (http.mkClient (5 * time.Second)
                      (Transport.mkPrefixRoundTripper (w_ephemeral w) DT)),
                 Some db) ∧
        w' = mkWorld (w_failing w) (w_clock w) (w_ephemeral w) (S (S (w_ticks w)))
               (w_trace w ++ calls)
               (<[db := mkDatabase false [] [si] [ec]]> (w_dbs w))
               (<[aa := {["com.example.app" := app]}]> (w_providers w))
               (<[k := false]> (w_tokens w))
               (w_cleanups w ++ [HelperCloseDatabase db; CancelToken k])
               (w_goroutines w ++ [g])
               (w_reports w))
       ∨
       (∃ s e,
          first_failure (w_failing w) setup_steps = Some (s, e) ∧
          o = Exit ∧
          w_reports w' = w_reports w ++ [TBFatal e] ∧
          (∃ made ev,
             w_trace w' = w_trace w ++ made ∧ made `prefix_of` calls ∧
             last made = Some ev ∧ call_of ev = Some s) ∧
          (w_dbs w' = w_dbs w ∨
           ∃ x, w_dbs w' = <[db := x]> (w_dbs w) ∧ db_closed x = false) ∧
          (∃ cs, w_cleanups w' = w_cleanups w ++ cs ∧
                 cs `prefix_of` [HelperCloseDatabase db; CancelToken k])))
    w.
Proof.
  destruct w as [f c a n t d p k cl g r].
  cbv zeta.
  cbn [w_failing w_clock w_ephemeral w_ticks w_trace w_dbs w_providers
       w_tokens w_cleanups w_goroutines w_reports].
  match goal with |- wp _ ?Q _ => set (post := Q) end.
  glue.
  explore ltac:(subst post; aborted) ltac:(subst post; returned).
Qed.

(** When no call fails, the set-up returns, and this is the world it
    leaves. *)
Lemma NewTestServer_ok w ctx P :
  first_failure (w_failing w) setup_steps = None →
  let aa := new_ref (w_providers w) in
  let db := new_ref (w_dbs w) in
  let k := new_ref (w_tokens w) in
  let env := mkServerEnv (Some aa) (Some MemoryBlobstore) (Some db)
               (Some NoopKeyManager) (Some NoopSecretManager) in
  let mux :=
    [("/cleanup-export",
      CleanupExportHandler (mkCleanupConfig (10 * time.Minute) (336 * time.Hour)) env);
     ("/cleanup-exposure",
      CleanupExposureHandler (mkCleanupConfig (10 * time.Minute) (336 * time.Hour)) env);
     ("/export/",
      StripPrefix "/export"
        (ExportRoutes
           (mkExportServer
              (mkExportServerConfig (10 * time.Second) (10 * time.Second) 1 1 10000
                 (1 * time.Second) (1 * time.Second) (336 * time.Hour)) env)
           Background));
     ("/federation-in",
      FederationInHandler env (mkFederationInConfig (10 * time.Minute) (1 * time.Hour)));
     ("/publish",
      PublishHandler Background
        (mkPublishConfig 15 2 (360 * time.Hour) (1 * time.Second) true) env)] in
  let g := mkGoroutine (mkServer (w_ephemeral w)) (WithCancelOf Background k) mux in
  let app := mkAuthorizedApp "com.example.app" {["TEST"]} {[12345]} true in
  let si := mkSignatureInfo "signer" "v1" "US" in
  let ec := mkExportConfig "my-bucket" P "TEST"
              (time.Add (w_clock w (w_ticks w)) (-2 * time.Second))
              (time.Add (w_clock w (S (w_ticks w))) (1 * time.Hour)) (Some []) in
  let calls :=
    [EvNewMemoryProvider; EvNewMemory; EvNewTestDatabase; EvKeysNewNoop;
     EvSecretsNewNoop; EvServerenvNew; EvNewServeMux;
     EvNewExportHandler; EvHandle "/cleanup-export";
     EvNewExposureHandler; EvHandle "/cleanup-exposure";
     EvExportNewServer; EvHandle "/export/";
     EvFederationInNewHandler; EvHandle "/federation-in";
     EvPublishNewHandler; EvHandle "/publish";
     EvServerNew; EvWithCancel k; EvGoServe g; EvNewClient (w_ephemeral w);
     EvAdd aa app; EvAddSignatureInfo db si; EvTimeNow; EvTimeNow;
     EvAddExportConfig db ec] in
  NewTestServer DT ctx P w =
  (Ret (env,
        mkEnServerClient
          (http.mkClient (5 * time.Second)
             (Transport.mkPrefixRoundTripper (w_ephemeral w) DT)),
        Some db),
   mkWorld (w_failing w) (w_clock w) (w_ephemeral w) (S (S (w_ticks w)))
     (w_trace w ++ calls)
     (<[db := mkDatabase false [] [si] [ec]]> (w_dbs w))
     (<[aa := {["com.example.app" := app]}]> (w_providers w))
     (<[k := false]> (w_tokens w))
     (w_cleanups w ++ [HelperCloseDatabase db; CancelToken k])
     (w_goroutines w ++ [g])
     (w_reports w)).
Proof.
  intros H. pose proof (NewTestServer_outcomes w ctx P) as Hrun.
  cbv zeta in *. unfold wp in Hrun.
  destruct (NewTestServer DT ctx P w) as [o w']. cbn [fst snd] in Hrun.
  destruct Hrun as [(_ & -> & ->)|(s & e & Hf & _)]; [reflexivity|congruence].
Qed.

(** When a call fails, the set-up ends in [tb.Fatal] at the first call
    that does. *)
Lemma NewTestServer_aborts w ctx P s e :
  first_failure (w_failing w) setup_steps = Some (s, e) →
  let aa := new_ref (w_providers w) in
  let db := new_ref (w_dbs w) in
  let k := new_ref (w_tokens w) in
  let env := mkServerEnv (Some aa) (Some MemoryBlobstore) (Some db)
               (Some NoopKeyManager) (Some NoopSecretManager) in
  let mux :=
    [("/cleanup-export",
      CleanupExportHandler (mkCleanupConfig (10 * time.Minute) (336 * time.Hour)) env);
     ("/cleanup-exposure",
      CleanupExposureHandler (mkCleanupConfig (10 * time.Minute) (336 * time.Hour)) env);
     ("/export/",
      StripPrefix "/export"
        (ExportRoutes
           (mkExportServer
              (mkExportServerConfig (10 * time.Second) (10 * time.Second) 1 1 10000
                 (1 * time.Second) (1 * time.Second) (336 * time.Hour)) env)
           Background));
     ("/federation-in",
      FederationInHandler env (mkFederationInConfig (10 * time.Minute) (1 * time.Hour)));
     ("/publish",
      PublishHandler Background
        (mkPublishConfig 15 2 (360 * time.Hour) (1 * time.Second) true) env)] in
  let g := mkGoroutine (mkServer (w_ephemeral w)) (WithCancelOf Background k) mux in
  let app := mkAuthorizedApp "com.example.app" {["TEST"]} {[12345]} true in
  let si := mkSignatureInfo "signer" "v1" "US" in
  let ec := mkExportConfig "my-bucket" P "TEST"
              (time.Add (w_clock w (w_ticks w)) (-2 * time.Second))
              (time.Add (w_clock w (S (w_ticks w))) (1 * time.Hour)) (Some []) in
  let calls :=
    [EvNewMemoryProvider; EvNewMemory; EvNewTestDatabase; EvKeysNewNoop;
     EvSecretsNewNoop; EvServerenvNew; EvNewServeMux;
     EvNewExportHandler; EvHandle "/cleanup-export";
     EvNewExposureHandler; EvHandle "/cleanup-exposure";
     EvExportNewServer; EvHandle "/export/";
     EvFederationInNewHandler; EvHandle "/federation-in";
     EvPublishNewHandler; EvHandle "/publish";
     EvServerNew; EvWithCancel k; EvGoServe g; EvNewClient (w_ephemeral w);
     EvAdd aa app; EvAddSignatureInfo db si; EvTimeNow; EvTimeNow;
     EvAddExportConfig db ec] in
  ∃ w',
    NewTestServer DT ctx P w = (Exit, w') ∧
    w_reports w' = w_reports w ++ [TBFatal e] ∧
    (∃ made ev,
       w_trace w' = w_trace w ++ made ∧ made `prefix_of` calls ∧
       last made = Some ev ∧ call_of ev = Some s) ∧
    (w_dbs w' = w_dbs w ∨
     ∃ x, w_dbs w' = <[db := x]> (w_dbs w) ∧ db_closed x = false) ∧
    (∃ cs, w_cleanups w' = w_cleanups w ++ cs ∧
           cs `prefix_of` [HelperCloseDatabase db; CancelToken k]).
Proof.
  intros H. pose proof (NewTestServer_outcomes w ctx P) as Hrun.
  cbv zeta in *. unfold wp in Hrun.
  destruct (NewTestServer DT ctx P w) as [o w']. cbn [fst snd] in Hrun.
  destruct Hrun as [(Hf & _)|(s' & e' & Hf & -> & Hrest)]; [congruence|].
  rewrite H in Hf. injection Hf as <- <-. by exists w'.
Qed.

(** The set-up returns only when none of its calls fails. *)
Lemma NewTestServer_returns w ctx P x w' :
  NewTestServer DT ctx P w = (Ret x, w') →
  first_failure (w_failing w) setup_steps = None.
Proof.
  intros H. pose proof (NewTestServer_outcomes w ctx P) as Hrun.
  cbv zeta in Hrun. unfold wp in Hrun. rewrite H in Hrun. cbn [fst snd] in Hrun.
  by destruct Hrun as [(Hf & _)|(s' & e' & _ & ? & _)].
Qed.

(** Whatever the outcome: the calls made are a prefix of the calls of
    the full set-up, at most one database is added, an open one, and at
    most two cleanups are registered, the helper's before the harness's. *)
Lemma NewTestServer_frame w ctx P :
  let aa := new_ref (w_providers w) in
  let db := new_ref (w_dbs w) in
  let k := new_ref (w_tokens w) in
  let env := mkServerEnv (Some aa) (Some MemoryBlobstore) (Some db)
               (Some NoopKeyManager) (Some NoopSecretManager) in
  let mux :=
    [("/cleanup-export",
      CleanupExportHandler (mkCleanupConfig (10 * time.Minute) (336 * time.Hour)) env);
     ("/cleanup-exposure",
      CleanupExposureHandler (mkCleanupConfig (10 * time.Minute) (336 * time.Hour)) env);
     ("/export/",
      StripPrefix "/export"
        (ExportRoutes
           (mkExportServer
              (mkExportServerConfig (10 * time.Second) (10 * time.Second) 1 1 10000
                 (1 * time.Second) (1 * time.Second) (336 * time.Hour)) env)
           Background));
     ("/federation-in",
      FederationInHandler env (mkFederationInConfig (10 * time.Minute) (1 * time.Hour)));
     ("/publish",
      PublishHandler Background
        (mkPublishConfig 15 2 (360 * time.Hour) (1 * time.Second) true) env)] in
  let g := mkGoroutine (mkServer (w_ephemeral w)) (WithCancelOf Background k) mux in
  let app := mkAuthorizedApp "com.example.app" {["TEST"]} {[12345]} true in
  let si := mkSignatureInfo "signer" "v1" "US" in
  let ec := mkExportConfig "my-bucket" P "TEST"
              (time.Add (w_clock w (w_ticks w)) (-2 * time.Second))
              (time.Add (w_clock w (S (w_ticks w))) (1 * time.Hour)) (Some []) in
  let calls :=
    [EvNewMemoryProvider; EvNewMemory; EvNewTestDatabase; EvKeysNewNoop;
     EvSecretsNewNoop; EvServerenvNew; EvNewServeMux;
     EvNewExportHandler; EvHandle "/cleanup-export";
     EvNewExposureHandler; EvHandle "/cleanup-exposure";
     EvExportNewServer; EvHandle "/export/";
     EvFederationInNewHandler; EvHandle "/federation-in";
     EvPublishNewHandler; EvHandle "/publish";
     EvServerNew; EvWithCancel k; EvGoServe g; EvNewClient (w_ephemeral w);
     EvAdd aa app; EvAddSignatureInfo db si; EvTimeNow; EvTimeNow;
     EvAddExportConfig db ec] in
  let w' := (NewTestServer DT ctx P w).2 in
  (∃ made, w_trace w' = w_trace w ++ made ∧ made `prefix_of` calls) ∧
  (w_dbs w' = w_dbs w ∨
   ∃ x, w_dbs w' = <[db := x]> (w_dbs w) ∧ db_closed x = false) ∧
  (∃ cs, w_cleanups w' = w_cleanups w ++ cs ∧
         cs `prefix_of` [HelperCloseDatabase db; CancelToken k]).
Proof.
  pose proof (NewTestServer_outcomes w ctx P) as Hrun.
  cbv zeta in *. unfold wp in Hrun.
  destruct (NewTestServer DT ctx P w) as [o w']. cbn [fst snd] in *.
  destruct Hrun as [(_ & _ & ->)|(s & e & _ & _ & _ & (made & ev & ? & ? & _) & ? & ?)].
  - cbn [w_trace w_dbs w_cleanups]. split; [by eexists|].
    split; [right; by eexists|by eexists].
  - split; [by exists made|done].
Qed.

(** The fixture seeder on its own: two writes and two readings of the
    clock between them. *)
Lemma createSignatureInfo_ok w ctx d P :
  w_failing w SAddSignatureInfo = None →
  w_failing w SAddExportConfig = None →
  let si := mkSignatureInfo "signer" "v1" "US" in
  let ec := mkExportConfig "my-bucket" P "TEST"
              (time.Add (w_clock w (w_ticks w)) (-2 * time.Second))
              (time.Add (w_clock w (S (w_ticks w))) (1 * time.Hour)) (Some []) in
  createSignatureInfo ctx (Some d) P w =
  (Ret (),
   mkWorld (w_failing w) (w_clock w) (w_ephemeral w) (S (S (w_ticks w)))
     (w_trace w ++ [EvAddSignatureInfo d si; EvTimeNow; EvTimeNow;
                    EvAddExportConfig d ec])
     (alter (exportdatabase.add_ExportConfig ec) d
        (alter (exportdatabase.add_SignatureInfo si) d (w_dbs w)))
     (w_providers w) (w_tokens w) (w_cleanups w) (w_goroutines w) (w_reports w)).
Proof.
  destruct w as [f c a n t dbs p k cl g r].
  cbn [w_failing w_clock w_ephemeral w_ticks w_trace w_dbs w_providers
       w_tokens w_cleanups w_goroutines w_reports].
  intros E1 E2. cbv zeta. apply wp_run.
  glue. repeat forward. rewrite E1. glue. repeat forward. rewrite E2. glue.
  repeat forward. f_equal. f_equal. by rewrite <- !app_assoc.
Qed.

(** C1.  In every set-up none of whose calls fails, with export period
    [P], the writes to the database are two, in this order: the
    signature info "signer"/"v1"/"US", then an export configuration for
    the bucket "my-bucket" and the region "TEST" whose period is [P],
    whose window starts two seconds before the reading of the clock made
    for [From] and ends one hour after the reading made next for [Thru],
    and whose list of signature info ids is the empty list (not nil);
    and these two rows are what the database holds. *)
Theorem seeder_writes_signature_info_then_export_config w ctx P :
  first_failure (w_failing w) setup_steps = None →
  ∃ env cli d w' made ec dbv,
    NewTestServer DT ctx P w = (Ret (env, cli, Some d), w') ∧
    serverenv.Database env = Some d ∧
    w_trace w' = w_trace w ++ made ∧
    filter (λ e, is_database_write e = true) made
    = [EvAddSignatureInfo d (mkSignatureInfo "signer" "v1" "US");
       EvAddExportConfig d ec] ∧
    BucketName ec = "my-bucket" ∧ Period ec = P ∧ OutputRegion ec = "TEST" ∧
    From ec = w_clock w (w_ticks w) - 2 * time.Second ∧
    Thru ec = w_clock w (S (w_ticks w)) + 1 * time.Hour ∧
    SignatureInfoIDs ec = Some [] ∧
    w_dbs w' !! d = Some dbv ∧
    db_SignatureInfo dbv = [mkSignatureInfo "signer" "v1" "US"] ∧
    db_ExportConfig dbv = [ec].
Proof.
  intros H. pose proof (NewTestServer_ok w ctx P H) as Hrun. cbv zeta in Hrun.
  eexists _, _, _, _, _, _, _. split; [exact Hrun|].
  cbn [w_trace w_dbs]. rewrite lookup_insert_eq.
  repeat split; cbn [From Thru]; unfold time.Add; lia.
Qed.

(** C4.  In every set-up none of whose calls fails, the mux handed to the
    serving loop has five entries, "/cleanup-export", "/cleanup-exposure",
    "/export/", "/federation-in" and "/publish", each with a handler of
    its own; "/export/" is the only subtree pattern, and its handler, the
    routes of the export server behind [http.StripPrefix] of "/export",
    is the only one that strips a prefix. *)
Theorem router_has_five_entries_and_strips_export_only w ctx P :
  first_failure (w_failing w) setup_steps = None →
  ∃ env cli db w' g,
    NewTestServer DT ctx P w = (Ret (env, cli, db), w') ∧
    w_goroutines w' = w_goroutines w ++ [g] ∧
    g_mux g =
      [("/cleanup-export",
        CleanupExportHandler
          (mkCleanupConfig (10 * time.Minute) (336 * time.Hour)) env);
       ("/cleanup-exposure",
        CleanupExposureHandler
          (mkCleanupConfig (10 * time.Minute) (336 * time.Hour)) env);
       ("/export/",
        StripPrefix "/export"
          (ExportRoutes
             (mkExportServer
                (mkExportServerConfig (10 * time.Second) (10 * time.Second)
                   1 1 10000 (1 * time.Second) (1 * time.Second)
                   (336 * time.Hour)) env)
             Background));
       ("/federation-in",
        FederationInHandler env
          (mkFederationInConfig (10 * time.Minute) (1 * time.Hour)));
       ("/publish",
        PublishHandler Background
          (mkPublishConfig 15 2 (360 * time.Hour) (1 * time.Second) true) env)] ∧
    NoDup (g_mux g).*1 ∧ NoDup (g_mux g).*2 ∧
    (∀ pattern h, (pattern, h) ∈ g_mux g →
       (strips h = true ↔ pattern = "/export/") ∧
       (http.subtree pattern = true ↔ pattern = "/export/")).
Proof.
  intros H. pose proof (NewTestServer_ok w ctx P H) as Hrun. cbv zeta in Hrun.
  eexists _, _, _, _, _. split; [exact Hrun|].
  cbn [w_goroutines g_mux]. split; [reflexivity|]. split; [reflexivity|].
  split; [|split].
  - cbn. repeat (apply NoDup_cons; split; [new_pattern|]). apply NoDup_nil_2.
  - cbn. repeat (apply NoDup_cons; split; [new_pattern|]). apply NoDup_nil_2.
  - intros pattern h Hin.
    repeat (apply elem_of_cons in Hin as [[= -> ->]|Hin]; [by split|]).
    by apply elem_of_nil in Hin.
Qed.

(** C5.  After every set-up none of whose calls fails, the registry and
    the database of the environment, both new in this world, hold one
    authorized application, one signature info and one export
    configuration. *)
Theorem setup_seeds_exactly_one_of_each w ctx P :
  first_failure (w_failing w) setup_steps = None →
  ∃ env cli d aa w' registry dbv,
    NewTestServer DT ctx P w = (Ret (env, cli, Some d), w') ∧
    serverenv.AuthorizedAppProvider env = Some aa ∧
    serverenv.Database env = Some d ∧
    w_providers w !! aa = None ∧ w_dbs w !! d = None ∧
    w_providers w' !! aa = Some registry ∧ size registry = 1%nat ∧
    w_dbs w' !! d = Some dbv ∧
    length (db_SignatureInfo dbv) = 1%nat ∧
    length (db_ExportConfig dbv) = 1%nat.
Proof.
  intros H. pose proof (NewTestServer_ok w ctx P H) as Hrun. cbv zeta in Hrun.
  eexists _, _, _, _, _, _, _. split; [exact Hrun|].
  cbn [w_providers w_dbs]. rewrite !lookup_insert_eq.
  split; [reflexivity|]. split; [reflexivity|].
  split; [apply new_ref_fresh|]. split; [apply new_ref_fresh|].
  split; [reflexivity|]. split; [apply map_size_singleton|].
  by repeat split.
Qed.

(** C2, as the program has it.  In every set-up none of whose calls
    fails, the listener is created and its serving loop started before
    the client is built, and the client is built before any fixture
    record is written; the three fixture writes are all made by the time
    the set-up returns. *)
Theorem listener_then_client_then_seeding w ctx P :
  first_failure (w_failing w) setup_steps = None →
  ∃ env cli db w' made aa d app si ec,
    NewTestServer DT ctx P w = (Ret (env, cli, db), w') ∧
    w_trace w' = w_trace w ++ made ∧
    precedes is_listener_start is_client_construction made ∧
    precedes is_client_construction is_seeding made ∧
    length (filter (λ e, is_listener_start e = true) made) = 2%nat ∧
    filter (λ e, is_client_construction e = true) made
    = [EvNewClient (w_ephemeral w)] ∧
    filter (λ e, is_seeding e = true) made
    = [EvAdd aa app; EvAddSignatureInfo d si; EvAddExportConfig d ec].
Proof.
  intros H. pose proof (NewTestServer_ok w ctx P H) as Hrun. cbv zeta in Hrun.
  eexists _, _, _, _, _, _, _, _, _, _. split; [exact Hrun|].
  cbn [w_trace]. split; [reflexivity|].
  split; [|split; [|by repeat split]].
  - match goal with
    | |- precedes _ _ ?l => change l with (take 20 l ++ drop 20 l)
    end.
    apply precedes_app; cbn [take drop]; by repeat constructor.
  - match goal with
    | |- precedes _ _ ?l => change l with (take 21 l ++ drop 21 l)
    end.
    apply precedes_app; cbn [take drop]; by repeat constructor.
Qed.

(** C6, as the program has it.  In every set-up none of whose calls
    fails, the baseline authorized application goes to the in-memory
    provider of the environment, which then holds it and nothing else:
    application "com.example.app", regions {"TEST"}, health authority
    ids {12345}, verification bypassed.  The database gets no authorized
    application. *)
Theorem seeder_adds_baseline_app_to_memory_provider w ctx P :
  first_failure (w_failing w) setup_steps = None →
  ∃ env cli d aa w' app made dbv,
    NewTestServer DT ctx P w = (Ret (env, cli, Some d), w') ∧
    serverenv.AuthorizedAppProvider env = Some aa ∧
    serverenv.Database env = Some d ∧
    w_trace w' = w_trace w ++ made ∧ EvAdd aa app ∈ made ∧
    w_providers w' !! aa = Some {["com.example.app" := app]} ∧
    AppPackageName app = "com.example.app" ∧
    AllowedRegions app = {["TEST"]} ∧
    AllowedHealthAuthorityIDs app = {[12345]} ∧
    BypassHealthAuthorityVerification app = true ∧
    w_dbs w' !! d = Some dbv ∧ db_AuthorizedApp dbv = [].
Proof.
  intros H. pose proof (NewTestServer_ok w ctx P H) as Hrun. cbv zeta in Hrun.
  eexists _, _, _, _, _, _, _, _. split; [exact Hrun|].
  cbn [w_trace w_providers w_dbs]. rewrite !lookup_insert_eq.
  split; [reflexivity|]. split; [reflexivity|]. split; [reflexivity|].
  split; [|by repeat split].
  do 21 apply list_elem_of_further. apply list_elem_of_here.
Qed.

(** C7.  When a call of the set-up fails, and it is the first to fail,
    the set-up does not return: the run ends in the [tb.Fatal] of that
    error, and the calls it made are those of the full set-up up to the
    failing call, which is the last one. *)
Theorem first_failing_step_aborts_setup w ctx P s e :
  first_failure (w_failing w) setup_steps = Some (s, e) →
  ∃ w' made ev calls,
    NewTestServer DT ctx P w = (Exit, w') ∧
    w_reports w' = w_reports w ++ [TBFatal e] ∧
    w_trace w' = w_trace w ++ made ∧
    w_trace (NewTestServer DT ctx P (never_failing w)).2 = w_trace w ++ calls ∧
    made `prefix_of` calls ∧
    last made = Some ev ∧ call_of ev = Some s.
Proof.
  intros H.
  destruct (NewTestServer_aborts w ctx P s e H)
    as (w' & Hrun & Hrep & (made & ev & Htr & Hpre & Hlast & Hcall) & _).
  cbv zeta in Hpre.
  pose proof (NewTestServer_ok (never_failing w) ctx P eq_refl) as Hfull.
  cbv zeta in Hfull.
  exists w', made, ev. eexists. split; [exact Hrun|]. split; [exact Hrep|].
  split; [exact Htr|]. rewrite Hfull. cbn [snd w_trace never_failing].
  split; [reflexivity|]. split; [exact Hpre|]. by split.
Qed.


(** C9.  Whatever the outcome of the set-up: it makes no call that
    closes a database; a database that was there is as open or closed
    as it was, and a new one is open; of the cleanups it registers, the
    only one of the harness itself cancels a context, which leaves every
    database as it is; the other is the helper's closing of its
    connection, registered first and therefore run last at teardown. *)
Theorem harness_never_closes_database w ctx P :
  let w' := (NewTestServer DT ctx P w).2 in
  ∃ made cs,
    w_trace w' = w_trace w ++ made ∧
    Forall (λ e, is_closing e = false) made ∧
    (∀ d x, w_dbs w !! d = Some x →
            ∃ x', w_dbs w' !! d = Some x' ∧ db_closed x' = db_closed x) ∧
    (∀ d x', w_dbs w' !! d = Some x' → w_dbs w !! d = None →
             db_closed x' = false) ∧
    w_cleanups w' = w_cleanups w ++ cs ∧
    cs `prefix_of` [HelperCloseDatabase (new_ref (w_dbs w));
                    CancelToken (new_ref (w_tokens w))] ∧
    (∀ token w1,
       ∃ w2, run_cleanup (CancelToken token) w1 = (Ret (), w2) ∧
             w_dbs w2 = w_dbs w1 ∧ w_trace w2 = w_trace w1).
Proof.
  pose proof (NewTestServer_frame w ctx P) as Hframe. cbv zeta in *.
  destruct Hframe as ((made & Htr & [rest Hpre]) & Hdbs & (cs & Hcl & Hcs)).
  exists made, cs. split; [exact Htr|]. split.
  { assert (Hall : Forall (λ e, is_closing e = false) (made ++ rest)).
    { rewrite <- Hpre. by repeat constructor. }
    by apply Forall_app in Hall as [? _]. }
  split; [|split; [|split; [exact Hcl|split; [exact Hcs|]]]].
  - intros d x Hd. destruct Hdbs as [->|(y & -> & Hy)]; [by exists x|].
    exists x. split; [|done]. rewrite lookup_insert_ne; [done|].
    intros <-. by rewrite new_ref_fresh in Hd.
  - intros d x' Hd' Hd. destruct Hdbs as [Heq|(y & Heq & Hy)];
      rewrite Heq in Hd'; [congruence|].
    destruct (decide (d = new_ref (w_dbs w))) as [->|Hne].
    + rewrite lookup_insert_eq in Hd'. congruence.
    + rewrite lookup_insert_ne in Hd' by done. congruence.
  - intros token w1. by eexists.
Qed.

End Setup.

Import Samples.

Lemma seeder_writes_signature_info_then_export_config_witness :
  first_failure (w_failing quiet) setup_steps = None ∧
  ∃ env cli d w' made ec dbv,
    NewTestServer wire Background time.Hour quiet = (Ret (env, cli, Some d), w') ∧
    serverenv.Database env = Some d ∧
    w_trace w' = w_trace quiet ++ made ∧
    filter (λ e, is_database_write e = true) made
    = [EvAddSignatureInfo d (mkSignatureInfo "signer" "v1" "US");
       EvAddExportConfig d ec] ∧
    BucketName ec = "my-bucket" ∧ Period ec = time.Hour ∧ OutputRegion ec = "TEST" ∧
    From ec = w_clock quiet (w_ticks quiet) - 2 * time.Second ∧
    Thru ec = w_clock quiet (S (w_ticks quiet)) + 1 * time.Hour ∧
    SignatureInfoIDs ec = Some [] ∧
    w_dbs w' !! d = Some dbv ∧
    db_SignatureInfo dbv = [mkSignatureInfo "signer" "v1" "US"] ∧
    db_ExportConfig dbv = [ec].
Proof.
  split; [reflexivity|].
  apply (seeder_writes_signature_info_then_export_config wire quiet Background time.Hour). reflexivity.
Defined.

Lemma router_has_five_entries_and_strips_export_only_witness :
  first_failure (w_failing quiet) setup_steps = None ∧
  ∃ env cli db w' g,
    NewTestServer wire Background time.Hour quiet = (Ret (env, cli, db), w') ∧
    w_goroutines w' = w_goroutines quiet ++ [g] ∧
    g_mux g =
      [("/cleanup-export",
        CleanupExportHandler
          (mkCleanupConfig (10 * time.Minute) (336 * time.Hour)) env);
       ("/cleanup-exposure",
        CleanupExposureHandler
          (mkCleanupConfig (10 * time.Minute) (336 * time.Hour)) env);
       ("/export/",
        StripPrefix "/export"
          (ExportRoutes
             (mkExportServer
                (mkExportServerConfig (10 * time.Second) (10 * time.Second)
                   1 1 10000 (1 * time.Second) (1 * time.Second)
                   (336 * time.Hour)) env)
             Background));
       ("/federation-in",
        FederationInHandler env
          (mkFederationInConfig (10 * time.Minute) (1 * time.Hour)));
       ("/publish",
        PublishHandler Background
          (mkPublishConfig 15 2 (360 * time.Hour) (1 * time.Second) true) env)] ∧
    NoDup (g_mux g).*1 ∧ NoDup (g_mux g).*2 ∧
    (∀ pattern h, (pattern, h) ∈ g_mux g →
       (strips h = true ↔ pattern = "/export/") ∧
       (http.subtree pattern = true ↔ pattern = "/export/")).
Proof.
  split; [reflexivity|].
  apply (router_has_five_entries_and_strips_export_only wire quiet Background time.Hour). reflexivity.
Defined.

Lemma setup_seeds_exactly_one_of_each_witness :
  first_failure (w_failing quiet) setup_steps = None ∧
  ∃ env cli d aa w' registry dbv,
    NewTestServer wire Background time.Hour quiet = (Ret (env, cli, Some d), w') ∧
    serverenv.AuthorizedAppProvider env = Some aa ∧
    serverenv.Database env = Some d ∧
    w_providers quiet !! aa = None ∧ w_dbs quiet !! d = None ∧
    w_providers w' !! aa = Some registry ∧ size registry = 1%nat ∧
    w_dbs w' !! d = Some dbv ∧
    length (db_SignatureInfo dbv) = 1%nat ∧
    length (db_ExportConfig dbv) = 1%nat.
Proof.
  split; [reflexivity|].
  apply (setup_seeds_exactly_one_of_each wire quiet Background time.Hour). reflexivity.
Defined.

Lemma listener_then_client_then_seeding_witness :
  first_failure (w_failing quiet) setup_steps = None ∧
  ∃ env cli db w' made aa d app si ec,
    NewTestServer wire Background time.Hour quiet = (Ret (env, cli, db), w') ∧
    w_trace w' = w_trace quiet ++ made ∧
    precedes is_listener_start is_client_construction made ∧
    precedes is_client_construction is_seeding made ∧
    length (filter (λ e, is_listener_start e = true) made) = 2%nat ∧
    filter (λ e, is_client_construction e = true) made
    = [EvNewClient (w_ephemeral quiet)] ∧
    filter (λ e, is_seeding e = true) made
    = [EvAdd aa app; EvAddSignatureInfo d si; EvAddExportConfig d ec].
Proof.
  split; [reflexivity|].
  apply (listener_then_client_then_seeding wire quiet Background time.Hour). reflexivity.
Defined.

Lemma seeder_adds_baseline_app_to_memory_provider_witness :
  first_failure (w_failing quiet) setup_steps = None ∧
  ∃ env cli d aa w' app made dbv,
    NewTestServer wire Background time.Hour quiet = (Ret (env, cli, Some d), w') ∧
    serverenv.AuthorizedAppProvider env = Some aa ∧
    serverenv.Database env = Some d ∧
    w_trace w' = w_trace quiet ++ made ∧ EvAdd aa app ∈ made ∧
    w_providers w' !! aa = Some {["com.example.app" := app]} ∧
    AppPackageName app = "com.example.app" ∧
    AllowedRegions app = {["TEST"]} ∧
    AllowedHealthAuthorityIDs app = {[12345]} ∧
    BypassHealthAuthorityVerification app = true ∧
    w_dbs w' !! d = Some dbv ∧ db_AuthorizedApp dbv = [].
Proof.
  split; [reflexivity|].
  apply (seeder_adds_baseline_app_to_memory_provider wire quiet Background time.Hour). reflexivity.
Defined.


Lemma first_failing_step_aborts_setup_witness :
  first_failure (w_failing no_listener) setup_steps = Some (SServerNew, "listen: address in use") ∧
  ∃ w' made ev calls,
    NewTestServer wire Background time.Hour no_listener = (Exit, w') ∧
    w_reports w' = w_reports no_listener ++ [TBFatal "listen: address in use"] ∧
    w_trace w' = w_trace no_listener ++ made ∧
    w_trace (NewTestServer wire Background time.Hour (never_failing no_listener)).2 = w_trace no_listener ++ calls ∧
    made `prefix_of` calls ∧
    last made = Some ev ∧ call_of ev = Some SServerNew.
Proof.
  split; [reflexivity|].
  apply (first_failing_step_aborts_setup wire no_listener Background time.Hour SServerNew "listen: address in use"). reflexivity.
Defined.

(** C2, as the specification has it, fails: in the quiet world the
    authorized application is added (call 21) after the serving loop was
    started (call 19). *)
Lemma seeding_does_not_precede_listener_start :
  ¬ (precedes is_seeding is_listener_start
       (w_trace (NewTestServer wire Background time.Hour quiet).2) ∧
     precedes is_listener_start is_client_construction
       (w_trace (NewTestServer wire Background time.Hour quiet).2)).
Proof.
  intros [H _].
  rewrite (NewTestServer_ok wire quiet Background time.Hour eq_refl) in H.
  cbv zeta in H. cbn [snd w_trace quiet app] in H.
  assert (21 < 19)%nat; [|lia].
  eapply (H 21%nat 19%nat); reflexivity.
Qed.

(** C6, as the specification has it, fails: after the set-up in the quiet
    world the database holds no authorized application. *)
Lemma baseline_app_is_not_in_database :
  ¬ (∃ env cli d w' dbv app,
       NewTestServer wire Background time.Hour quiet = (Ret (env, cli, Some d), w') ∧
       w_dbs w' !! d = Some dbv ∧
       app ∈ db_AuthorizedApp dbv ∧
       AppPackageName app = "com.example.app").
Proof.
  intros (env & cli & d & w' & dbv & app & Hrun & Hd & Hin & _).
  rewrite (NewTestServer_ok wire quiet Background time.Hour eq_refl) in Hrun.
  cbv zeta in Hrun. injection Hrun as _ _ <- <-.
  cbn [w_dbs] in Hd. rewrite lookup_insert_eq in Hd. injection Hd as <-.
  cbn in Hin. by apply elem_of_nil in Hin.
Qed.

(** The set-up, run: in the quiet world it returns the client of the
    listener's address; when the listener cannot be created the run ends
    after eleven calls to other packages and seven registrations, with no
    goroutine started. *)
Example NewTestServer_quiet_client :
  (λ x, Transport.addr (http.Transport (client x.1.2)))
    <$> (match (NewTestServer wire Background time.Hour quiet).1 with
         | Ret x => Some x
         | _ => None
         end)
  = Some "127.0.0.1:8080".
Proof. vm_compute. reflexivity. Qed.

Example NewTestServer_no_listener :
  let w' := (NewTestServer wire Background time.Hour no_listener).2 in
  length (w_trace w') = 18%nat ∧ w_goroutines w' = [] ∧
  w_reports w' = [TBFatal "listen: address in use"].
Proof. vm_compute. by repeat split. Qed.

End HarnessSpec.

(* ===================================================================== *)
(** ** More on the transport shim *)
(* ===================================================================== *)

Module ShimMore.
Import Transport Samples More ShimSpec.

Section Facts.

Context {Result : Type}.
Implicit Types (p : prefixRoundTripper Result) (r : Request) (m : Mem) (u : URL).


(** X2.  With a shim whose address is not empty, the URL that reaches the
    underlying transport has a scheme and a host, and sending the request
    once more assigns nothing: the transport is handed the same memory. *)
Theorem RoundTrip_again_assigns_nothing p r m u :
  urls m !! ReqURL r = Some u → addr p ≠ "" →
  ∃ m' u',
    RoundTrip p r m = Some (rt p r m') ∧
    urls m' !! ReqURL r = Some u' ∧
    Scheme u' ≠ "" ∧ Host u' ≠ "" ∧
    RoundTrip p r m' = Some (rt p r m').
Proof.
  intros Hu Ha. rewrite (RoundTrip_run _ _ _ _ Hu).
  assert (Hagain : ∀ m' u', urls m' !! ReqURL r = Some u' →
            Scheme u' ≠ "" → Host u' ≠ "" →
            RoundTrip p r m' = Some (rt p r m')).
  { intros m' u' Hu' Hs Hh. rewrite (RoundTrip_run _ _ _ _ Hu').
    by rewrite !decide_False. }
  destruct (decide (Scheme u = "")) as [Hs|Hs],
           (decide (Host u = "")) as [Hh|Hh];
    eexists _, _; (split; [reflexivity|]).
  - split; [apply lookup_insert_eq|]. split; [done|]. split; [done|].
    eapply Hagain; [apply lookup_insert_eq|done|done].
  - split; [apply lookup_insert_eq|]. split; [done|]. split; [done|].
    eapply Hagain; [apply lookup_insert_eq|done|done].
  - split; [apply lookup_insert_eq|]. split; [done|]. split; [done|].
    eapply Hagain; [apply lookup_insert_eq|done|done].
  - split; [exact Hu|]. split; [done|]. split; [done|].
    by eapply Hagain.
Qed.

End Facts.

Lemma RoundTrip_again_assigns_nothing_witness :
  urls memory !! ReqURL export_request = Some relative ∧ addr shim ≠ "" ∧
  ∃ m' u',
    RoundTrip shim export_request memory = Some (rt shim export_request m') ∧
    urls m' !! ReqURL export_request = Some u' ∧
    Scheme u' ≠ "" ∧ Host u' ≠ "" ∧
    RoundTrip shim export_request m' = Some (rt shim export_request m').
Proof.
  split; [vm_compute; reflexivity|]. split; [discriminate|].
  apply (RoundTrip_again_assigns_nothing shim export_request memory relative).
  - vm_compute; reflexivity.
  - discriminate.
Defined.

(** A request with a nil URL never reaches the wire. *)
Example RoundTrip_nil_request : RoundTrip shim nil_request memory = None.
Proof. vm_compute. reflexivity. Qed.

End ShimMore.

(* ===================================================================== *)
(** ** More on the harness set-up *)
(* ===================================================================== *)

Module HarnessMore.
Import Harness Samples More HarnessSpec.

(** Teardown cancels every context whose [stop] was registered. *)
Lemma run_cleanups_cancels cs w token :
  CancelToken token ∈ cs →
  ∃ w', run_cleanups cs w = (Ret (), w') ∧
        w_failing w' = w_failing w ∧ w_reports w' = w_reports w ∧
        w_tokens w' !! token = Some true.
Proof.
  revert w. induction cs as [|c cs IH]; intros w Hin.
  - by apply elem_of_nil in Hin.
  - cbn [run_cleanups]. rewrite bind_run.
    destruct (run_cleanup_frame c w) as (w1 & Hc & Hf1 & Hr1 & Hk1). rewrite Hc.
    apply elem_of_cons in Hin as [<-|Hin].
    + assert (Htok : w_tokens w1 !! token = Some true).
      { cbn in Hc. injection Hc as <-. cbn. apply lookup_insert_eq. }
      destruct (run_cleanups_frame cs w1) as (w2 & -> & Hf2 & Hr2 & Hk2).
      exists w2. split; [reflexivity|]. rewrite Hf2, Hr2, Hf1, Hr1. auto.
    + destruct (IH w1 Hin) as (w2 & -> & Hf2 & Hr2 & Hk2).
      exists w2. split; [reflexivity|]. by rewrite Hf2, Hr2, Hf1, Hr1.
Qed.

Lemma teardown_cancels_registered w token :
  CancelToken token ∈ w_cleanups w →
  ∃ w2, teardown w = (Ret (), w2) ∧
        w_failing w2 = w_failing w ∧ w_reports w2 = w_reports w ∧
        w_tokens w2 !! token = Some true.
Proof.
  intros Hin. unfold teardown. rewrite bind_run. unfold reads.
  rewrite bind_run. unfold modify.
  destruct (run_cleanups_cancels (rev (w_cleanups w)) (set_cleanups [] w) token)
    as (w2 & -> & Hf & Hr & Hk).
  { apply list_elem_of_In, List.in_rev. rewrite List.rev_involutive.
    by apply list_elem_of_In. }
  exists w2. split; [reflexivity|]. rewrite Hf, Hr. by destruct w.
Qed.

(** The goroutines and cleanups of a run, whatever its outcome. *)
Ltac stoppable :=
  cbv beta;
  cbn [w_failing w_clock w_ephemeral w_ticks w_trace w_dbs w_providers
       w_tokens w_cleanups w_goroutines w_reports];
  rewrite <- ?app_assoc;
  eexists _, _;
  split; [first [symmetry; apply app_nil_r | reflexivity]|];
  split; [first [symmetry; apply app_nil_r | reflexivity]|];
  split; [reflexivity|];
  split; [cbn; lia|];
  let g0 := fresh "g0" in
  let Hin := fresh "Hin" in
  intros g0 Hin;
  first [ by apply elem_of_nil in Hin
        | apply list_elem_of_singleton in Hin as ->;
          eexists; split; [reflexivity|];
          cbn [app g_ctx];
          repeat first [apply list_elem_of_here | apply list_elem_of_further] ].

(** The stores of a run, whatever its outcome. *)
Ltac own_stores :=
  cbv beta;
  cbn [w_failing w_clock w_ephemeral w_ticks w_trace w_dbs w_providers
       w_tokens w_cleanups w_goroutines w_reports];
  rewrite ?alter_insert_eq;
  split; [first [left; reflexivity | right; eexists; reflexivity]|];
  split; [first [left; reflexivity | right; eexists; reflexivity]|];
  split; [first [left; reflexivity | right; reflexivity]|];
  first [left; reflexivity | right; reflexivity].

Section Setup.

Context {Result : Type} (DT : Transport.RoundTripper Result).
Implicit Types (w : World) (ctx : Context) (P : Duration).

Lemma NewTestServer_goroutines w ctx P :
  wp (NewTestServer DT ctx P)
    (λ o w',
       ∃ gs cs,
         w_goroutines w' = w_goroutines w ++ gs ∧
         w_cleanups w' = w_cleanups w ++ cs ∧
         w_failing w' = w_failing w ∧
         (length gs ≤ 1)%nat ∧
         ∀ g, g ∈ gs →
              ∃ token, g_ctx g = WithCancelOf Background token ∧
                       CancelToken token ∈ cs)
    w.
Proof.
  destruct w as [f c a n t d p k cl g r].
  cbn [w_failing w_clock w_ephemeral w_ticks w_trace w_dbs w_providers
       w_tokens w_cleanups w_goroutines w_reports].
  match goal with |- wp _ ?Q _ => set (post := Q) end.
  glue.
  explore ltac:(subst post; stoppable) ltac:(subst post; stoppable).
Qed.

(** X3.  The client a successful set-up returns has a timeout of five
    seconds, and its transport sends a request that names only a path to
    the address of the server the goroutine serves, over "http", through
    [http.DefaultTransport]. *)
Theorem client_reaches_listener w ctx P r m u :
  first_failure (w_failing w) setup_steps = None →
  Transport.urls m !! Transport.ReqURL r = Some u →
  Transport.Scheme u = "" → Transport.Host u = "" →
  ∃ env cli db w' g m',
    NewTestServer DT ctx P w = (Ret (env, cli, db), w') ∧
    w_goroutines w' = w_goroutines w ++ [g] ∧
    http.Timeout (client cli) = 5 * time.Second ∧
    Transport.RoundTrip (http.Transport (client cli)) r m = Some (DT r m') ∧
    Transport.urls m' !! Transport.ReqURL r
    = Some (Transport.mkURL "http" (Transport.Opaque u) (server.Addr (g_srv g))
              (Transport.Path u) (Transport.RawQuery u) (Transport.Fragment u)).
Proof.
  intros H Hu Hs Hh.
  pose proof (NewTestServer_ok DT w ctx P H) as Hrun. cbv zeta in Hrun.
  eexists _, _, _, _, _, _. split; [exact Hrun|].
  cbn [w_goroutines client http.Timeout http.Transport].
  split; [reflexivity|]. split; [reflexivity|].
  rewrite (ShimSpec.RoundTrip_run _ _ _ _ Hu).
  rewrite !decide_True by done. split; [reflexivity|].
  cbn [Transport.urls]. rewrite lookup_insert_eq.
  reflexivity.
Qed.

(** X4.  The set-up never panics and never calls [tb.Error]: it returns
    and reports nothing, or it exits and has reported one [tb.Fatal]. *)
Theorem setup_returns_or_reports_one_fatal w ctx P :
  let o := (NewTestServer DT ctx P w).1 in
  let w' := (NewTestServer DT ctx P w).2 in
  (∃ x, o = Ret x ∧ w_reports w' = w_reports w) ∨
  (∃ e, o = Exit ∧ w_reports w' = w_reports w ++ [TBFatal e]).
Proof.
  pose proof (NewTestServer_outcomes DT w ctx P) as Hrun.
  cbv zeta in *. unfold wp in Hrun.
  destruct (NewTestServer DT ctx P w) as [o w']. cbn [fst snd] in *.
  destruct Hrun as [(_ & -> & ->)|(s & e & _ & -> & Hrep & _)].
  - left. by eexists.
  - right. by exists e.
Qed.

(** X5.  Whatever the outcome of the set-up, also when a fixture write
    fails after the listener was started: at most one goroutine is
    started, and teardown cancels its context, after which the serving
    loop ends and, unless serving itself failed, reports nothing. *)
Theorem started_listener_is_stopped_at_teardown w ctx P :
  let w' := (NewTestServer DT ctx P w).2 in
  ∃ gs,
    w_goroutines w' = w_goroutines w ++ gs ∧ (length gs ≤ 1)%nat ∧
    ∀ g, g ∈ gs →
      ∃ w2, teardown w' = (Ret (), w2) ∧
            context.done (g_ctx g) w2 = true ∧
            w_reports w2 = w_reports w' ∧
            (w_failing w SServeHTTPHandler = None →
             serve_body g w2 = Some (Ret (), w2)).
Proof.
  pose proof (NewTestServer_goroutines w ctx P) as Hrun.
  cbv zeta. unfold wp in Hrun.
  destruct (NewTestServer DT ctx P w) as [o w']. cbn [fst snd] in *.
  destruct Hrun as (gs & cs & Hgs & Hcs & Hf & Hlen & Hstop).
  exists gs. split; [exact Hgs|]. split; [exact Hlen|].
  intros g Hg. destruct (Hstop g Hg) as (token & Hctx & Hin).
  destruct (teardown_cancels_registered w' token) as (w2 & Htd & Hf2 & Hr2 & Hk).
  { rewrite Hcs. apply elem_of_app. by right. }
  exists w2. split; [exact Htd|].
  assert (Hdone : context.done (g_ctx g) w2 = true).
  { rewrite Hctx. cbn [context.done]. by rewrite Hk, bool_decide_eq_true_2. }
  split; [exact Hdone|]. split; [exact Hr2|].
  intros He. unfold serve_body, server.ServeHTTPHandler.
  by rewrite Hf2, Hf, He, Hdone.
Qed.

(** X6.  When the signature info cannot be written, the fixture seeder
    stops there: one [tb.Fatal], no reading of the clock, no attempt to
    write an export configuration, and the databases as they were. *)
Theorem createSignatureInfo_stops_at_first_failure w ctx d P e :
  w_failing w SAddSignatureInfo = Some e →
  ∃ w',
    createSignatureInfo ctx (Some d) P w = (Exit, w') ∧
    w_reports w' = w_reports w ++ [TBFatal e] ∧
    w_trace w' = w_trace w ++ [EvAddSignatureInfo d (mkSignatureInfo "signer" "v1" "US")] ∧
    w_ticks w' = w_ticks w ∧ w_dbs w' = w_dbs w.
Proof.
  destruct w as [f c a n t dbs p k cl g r].
  cbn [w_failing w_clock w_ephemeral w_ticks w_trace w_dbs w_providers
       w_tokens w_cleanups w_goroutines w_reports].
  intros E1. eexists. split.
  - apply wp_run. glue. repeat forward. rewrite E1. glue. repeat forward.
    reflexivity.
  - by repeat split.
Qed.

(** X7.  When the export configuration cannot be written, the fixture
    seeder ends in [tb.Fatal] and undoes nothing: the signature info it
    wrote stays in the database, the clock was read twice, and the failed
    write is the last call. *)
Theorem createSignatureInfo_keeps_first_write w ctx d P e x :
  w_failing w SAddSignatureInfo = None →
  w_failing w SAddExportConfig = Some e →
  w_dbs w !! d = Some x →
  ∃ w' x' ec,
    createSignatureInfo ctx (Some d) P w = (Exit, w') ∧
    w_reports w' = w_reports w ++ [TBFatal e] ∧
    w_trace w' = w_trace w ++
      [EvAddSignatureInfo d (mkSignatureInfo "signer" "v1" "US");
       EvTimeNow; EvTimeNow; EvAddExportConfig d ec] ∧
    w_ticks w' = S (S (w_ticks w)) ∧
    w_dbs w' !! d = Some x' ∧
    db_SignatureInfo x' = db_SignatureInfo x ++ [mkSignatureInfo "signer" "v1" "US"] ∧
    db_ExportConfig x' = db_ExportConfig x ∧
    (∀ d', d' ≠ d → w_dbs w' !! d' = w_dbs w !! d').
Proof.
  destruct w as [f c a n t dbs p k cl g r].
  cbn [w_failing w_clock w_ephemeral w_ticks w_trace w_dbs w_providers
       w_tokens w_cleanups w_goroutines w_reports].
  intros E1 E2 Hx. eexists _, _, _. split.
  - apply wp_run. glue. repeat forward. rewrite E1. glue. repeat forward.
    rewrite E2. glue. repeat forward. reflexivity.
  - cbn [w_reports w_trace w_ticks w_dbs]. rewrite <- !app_assoc.
    split; [reflexivity|]. split; [reflexivity|]. split; [reflexivity|].
    split; [by rewrite lookup_alter_eq, Hx|].
    split; [reflexivity|]. split; [reflexivity|].
    intros d' Hd'. by rewrite lookup_alter_ne.
Qed.

(** X8.  When the clock does not go back between its two readings, the
    window of the export configuration the seeder writes holds both
    readings strictly inside, and is at least one hour and two seconds
    long. *)
Theorem export_window_contains_now w ctx d P :
  w_failing w SAddSignatureInfo = None →
  w_failing w SAddExportConfig = None →
  (w_clock w (w_ticks w) ≤ w_clock w (S (w_ticks w)))%Z →
  ∃ w' made ec,
    createSignatureInfo ctx (Some d) P w = (Ret (), w') ∧
    w_trace w' = w_trace w ++ made ∧
    last made = Some (EvAddExportConfig d ec) ∧
    (From ec < w_clock w (w_ticks w))%Z ∧
    (w_clock w (S (w_ticks w)) < Thru ec)%Z ∧
    (1 * time.Hour + 2 * time.Second ≤ Thru ec - From ec)%Z.
Proof.
  intros E1 E2 Hclock.
  pose proof (createSignatureInfo_ok w ctx d P E1 E2) as Hrun. cbv zeta in Hrun.
  eexists _, _, _. split; [exact Hrun|]. cbn [w_trace].
  split; [reflexivity|]. split; [reflexivity|].
  cbn [From Thru]. unfold time.Add, time.Hour, time.Minute, time.Second,
    time.Millisecond, time.Microsecond, time.Nanosecond. lia.
Qed.

(** X9.  After a set-up none of whose calls fails, teardown first cancels
    the context of the serving loop, with the database still open, then
    runs the helper's closing of the database, and only then the cleanups
    that were registered before the set-up. *)
Theorem teardown_cancels_then_closes w ctx P :
  first_failure (w_failing w) setup_steps = None →
  ∃ x w' token db w1 w2 w3 dbv,
    NewTestServer DT ctx P w = (Ret x, w') ∧
    w_cleanups w' = w_cleanups w ++ [HelperCloseDatabase db; CancelToken token] ∧
    run_cleanup (CancelToken token) (set_cleanups [] w') = (Ret (), w1) ∧
    w_tokens w1 !! token = Some true ∧
    w_dbs w1 = w_dbs w' ∧ w_dbs w' !! db = Some dbv ∧ db_closed dbv = false ∧
    run_cleanup (HelperCloseDatabase db) w1 = (Ret (), w2) ∧
    w_trace w2 = w_trace w' ++ [EvDatabaseClose db] ∧
    db_closed <$> w_dbs w2 !! db = Some true ∧
    run_cleanups (rev (w_cleanups w)) w2 = (Ret (), w3) ∧
    teardown w' = (Ret (), w3).
Proof.
  intros H. pose proof (NewTestServer_ok DT w ctx P H) as Hrun. cbv zeta in Hrun.
  destruct (run_cleanups_frame (rev (w_cleanups w))
              (run_cleanup (HelperCloseDatabase (new_ref (w_dbs w)))
                 (run_cleanup (CancelToken (new_ref (w_tokens w)))
                    (set_cleanups [] (NewTestServer DT ctx P w).2)).2).2)
    as (w3 & Hrest & _).
  rewrite Hrun in Hrest. cbn [snd] in Hrest.
  eexists _, _, _, _, _, _, w3, _. split; [exact Hrun|].
  cbn [w_cleanups]. split; [reflexivity|]. split; [reflexivity|].
  cbn [snd w_tokens w_dbs set_tokens set_cleanups].
  rewrite !lookup_insert_eq. split; [reflexivity|]. split; [reflexivity|].
  split; [reflexivity|]. split; [reflexivity|].
  split; [reflexivity|]. split; [reflexivity|].
  split; [cbn; by rewrite lookup_alter_eq, lookup_insert_eq|].
  split; [exact Hrest|].
  unfold teardown. rewrite bind_run. unfold reads. rewrite bind_run.
  unfold modify. cbn [w_cleanups]. rewrite rev_app_distr.
  cbn [rev app run_cleanups]. rewrite !bind_run. exact Hrest.
Qed.

(** What a successful set-up adds to the stores of the world. *)
Lemma NewTestServer_stores w ctx P :
  first_failure (w_failing w) setup_steps = None →
  ∃ env cli w' g x y,
    NewTestServer DT ctx P w = (Ret (env, cli, Some (new_ref (w_dbs w))), w') ∧
    serverenv.AuthorizedAppProvider env = Some (new_ref (w_providers w)) ∧
    w_failing w' = w_failing w ∧
    w_dbs w' = <[new_ref (w_dbs w) := x]> (w_dbs w) ∧
    w_providers w' = <[new_ref (w_providers w) := y]> (w_providers w) ∧
    w_tokens w' = <[new_ref (w_tokens w) := false]> (w_tokens w) ∧
    w_goroutines w' = w_goroutines w ++ [g] ∧
    g_ctx g = WithCancelOf Background (new_ref (w_tokens w)).
Proof.
  intros H. pose proof (NewTestServer_ok DT w ctx P H) as Hrun. cbv zeta in Hrun.
  eexists _, _, _, _, _, _. split; [exact Hrun|]. by repeat split.
Qed.

(** A location that is new to a store differs from the one that was new
    before it was filled. *)
Lemma new_ref_after_insert {V} (m : gmap nat V) (v : V) :
  new_ref (<[new_ref m := v]> m) ≠ new_ref m.
Proof.
  intros Heq. pose proof (new_ref_fresh (<[new_ref m := v]> m)) as Hfresh.
  rewrite Heq in Hfresh. by rewrite lookup_insert_eq in Hfresh.
Qed.

(** X10.  Two set-ups, one after the other, share nothing: the second
    gets a provider, a database and a context of its own, the records of
    the first are as they were, and cancelling the context of the first
    leaves the context of the second live. *)
Theorem two_setups_are_independent w ctx P ctx' P' :
  first_failure (w_failing w) setup_steps = None →
  ∃ env1 cli1 d1 aa1 w1 g1 env2 cli2 d2 aa2 w2 g2,
    NewTestServer DT ctx P w = (Ret (env1, cli1, Some d1), w1) ∧
    NewTestServer DT ctx' P' w1 = (Ret (env2, cli2, Some d2), w2) ∧
    serverenv.AuthorizedAppProvider env1 = Some aa1 ∧
    serverenv.AuthorizedAppProvider env2 = Some aa2 ∧
    d1 ≠ d2 ∧ aa1 ≠ aa2 ∧
    w_dbs w2 !! d1 = w_dbs w1 !! d1 ∧
    w_providers w2 !! aa1 = w_providers w1 !! aa1 ∧
    w_goroutines w2 = w_goroutines w ++ [g1; g2] ∧
    ∃ k1 w3,
      run_cleanup (CancelToken k1) w2 = (Ret (), w3) ∧
      g_ctx g1 = WithCancelOf Background k1 ∧
      context.done (g_ctx g1) w3 = true ∧
      context.done (g_ctx g2) w3 = false.
Proof.
  intros H.
  destruct (NewTestServer_stores w ctx P H)
    as (env1 & cli1 & w1 & g1 & x1 & y1 & Hrun1 & Haa1 & Hf1 & Hd1 & Hp1 & Hk1 & Hg1 & Hc1).
  rewrite <- Hf1 in H.
  destruct (NewTestServer_stores w1 ctx' P' H)
    as (env2 & cli2 & w2 & g2 & x2 & y2 & Hrun2 & Haa2 & Hf2 & Hd2 & Hp2 & Hk2 & Hg2 & Hc2).
  assert (Hd : new_ref (w_dbs w) ≠ new_ref (w_dbs w1)).
  { rewrite Hd1. apply not_eq_sym, new_ref_after_insert. }
  assert (Ha : new_ref (w_providers w) ≠ new_ref (w_providers w1)).
  { rewrite Hp1. apply not_eq_sym, new_ref_after_insert. }
  assert (Hk : new_ref (w_tokens w) ≠ new_ref (w_tokens w1)).
  { rewrite Hk1. apply not_eq_sym, new_ref_after_insert. }
  exists env1, cli1, (new_ref (w_dbs w)), (new_ref (w_providers w)), w1, g1,
         env2, cli2, (new_ref (w_dbs w1)), (new_ref (w_providers w1)), w2, g2.
  split; [exact Hrun1|]. split; [exact Hrun2|].
  split; [exact Haa1|]. split; [exact Haa2|].
  split; [exact Hd|]. split; [exact Ha|].
  split; [by rewrite Hd2, lookup_insert_ne by (by apply not_eq_sym)|].
  split; [by rewrite Hp2, lookup_insert_ne by (by apply not_eq_sym)|].
  split; [by rewrite Hg2, Hg1, <- app_assoc|].
  exists (new_ref (w_tokens w)). eexists. split; [reflexivity|].
  split; [exact Hc1|].
  rewrite Hc1, Hc2. cbn [context.done w_tokens set_tokens].
  rewrite lookup_insert_eq, Hk2.
  rewrite lookup_insert_ne by done. rewrite lookup_insert_eq.
  split; [by rewrite bool_decide_eq_true_2|].
  by rewrite bool_decide_eq_false_2.
Qed.

(** X11.  The handle a successful set-up returns is the database of the
    environment it returns; that environment binds all five capabilities,
    and every handler on the mux was built from it. *)
Theorem handlers_share_returned_environment w ctx P :
  first_failure (w_failing w) setup_steps = None →
  ∃ env cli db w' g,
    NewTestServer DT ctx P w = (Ret (env, cli, db), w') ∧
    w_goroutines w' = w_goroutines w ++ [g] ∧
    db = serverenv.Database env ∧
    is_Some (env_authorizedAppProvider env) ∧ is_Some (env_blobstore env) ∧
    is_Some (env_database env) ∧ is_Some (env_keyManager env) ∧
    is_Some (env_secretManager env) ∧
    length (g_mux g) = 5%nat ∧
    ∀ pattern h, (pattern, h) ∈ g_mux g → handler_env h = env.
Proof.
  intros H. pose proof (NewTestServer_ok DT w ctx P H) as Hrun. cbv zeta in Hrun.
  eexists _, _, _, _, _. split; [exact Hrun|].
  cbn [w_goroutines g_mux]. split; [reflexivity|]. split; [reflexivity|].
  do 5 (split; [by eexists|]). split; [reflexivity|].
  intros pattern h Hin.
  repeat (apply elem_of_cons in Hin as [[= -> ->]|Hin]; [reflexivity|]).
  by apply elem_of_nil in Hin.
Qed.

Lemma NewTestServer_own_stores w ctx P :
  wp (NewTestServer DT ctx P)
    (λ o w',
       (w_dbs w' = w_dbs w ∨
        ∃ x, w_dbs w' = <[new_ref (w_dbs w) := x]> (w_dbs w)) ∧
       (w_providers w' = w_providers w ∨
        ∃ y, w_providers w' = <[new_ref (w_providers w) := y]> (w_providers w)) ∧
       (w_tokens w' = w_tokens w ∨
        w_tokens w' = <[new_ref (w_tokens w) := false]> (w_tokens w)) ∧
       (w_ticks w' = w_ticks w ∨ w_ticks w' = S (S (w_ticks w))))
    w.
Proof.
  destruct w as [f c a n t d p k cl g r].
  cbn [w_failing w_clock w_ephemeral w_ticks w_trace w_dbs w_providers
       w_tokens w_cleanups w_goroutines w_reports].
  match goal with |- wp _ ?Q _ => set (post := Q) end.
  glue.
  explore ltac:(subst post; own_stores) ltac:(subst post; own_stores).
Qed.

(** X12.  Whatever its outcome, the set-up leaves every database, every
    provider and every cancellation token that was there before as it
    was, and it reads the clock twice or not at all. *)
Theorem setup_leaves_existing_stores_alone w ctx P :
  let w' := (NewTestServer DT ctx P w).2 in
  (∀ d x, w_dbs w !! d = Some x → w_dbs w' !! d = Some x) ∧
  (∀ a y, w_providers w !! a = Some y → w_providers w' !! a = Some y) ∧
  (∀ k b, w_tokens w !! k = Some b → w_tokens w' !! k = Some b) ∧
  (w_ticks w' = w_ticks w ∨ w_ticks w' = S (S (w_ticks w))).
Proof.
  pose proof (NewTestServer_own_stores w ctx P) as Hrun.
  cbv zeta. unfold wp in Hrun.
  destruct (NewTestServer DT ctx P w) as [o w']. cbn [fst snd] in *.
  destruct Hrun as (Hd & Hp & Hk & Ht).
  assert (Hkeep : ∀ {V} (m m' : gmap nat V) (v : V),
            (m' = m ∨ m' = <[new_ref m := v]> m) →
            ∀ i z, m !! i = Some z → m' !! i = Some z).
  { intros V m m' v [->| ->] i z Hi; [done|].
    rewrite lookup_insert_ne; [done|].
    intros <-. by rewrite new_ref_fresh in Hi. }
  split; [|split; [|split; [|exact Ht]]].
  - destruct Hd as [Hd|[x Hd]].
    + intros d z. by rewrite Hd.
    + apply (Hkeep _ _ _ x). by right.
  - destruct Hp as [Hp|[y Hp]].
    + intros i z. by rewrite Hp.
    + apply (Hkeep _ _ _ y). by right.
  - by apply (Hkeep _ _ _ false).
Qed.

End Setup.

Lemma client_reaches_listener_witness :
  first_failure (w_failing quiet) setup_steps = None ∧
  Transport.urls memory !! Transport.ReqURL export_request = Some relative ∧
  Transport.Scheme relative = "" ∧
  Transport.Host relative = "" ∧
  ∃ env cli db w' g m',
    NewTestServer wire Background time.Hour quiet = (Ret (env, cli, db), w') ∧
    w_goroutines w' = w_goroutines quiet ++ [g] ∧
    http.Timeout (client cli) = 5 * time.Second ∧
    Transport.RoundTrip (http.Transport (client cli)) export_request memory = Some (wire export_request m') ∧
    Transport.urls m' !! Transport.ReqURL export_request
    = Some (Transport.mkURL "http" (Transport.Opaque relative) (server.Addr (g_srv g))
              (Transport.Path relative) (Transport.RawQuery relative) (Transport.Fragment relative)).
Proof.
  split; [reflexivity|].
  split; [vm_compute; reflexivity|].
  split; [reflexivity|].
  split; [reflexivity|].
  apply (client_reaches_listener wire quiet Background time.Hour export_request memory relative).
  - reflexivity.
  - vm_compute; reflexivity.
  - reflexivity.
  - reflexivity.
Defined.

Lemma createSignatureInfo_stops_at_first_failure_witness :
  w_failing no_signature_info SAddSignatureInfo = Some "insert: refused" ∧
  ∃ w',
    createSignatureInfo Background (Some 3%nat) time.Hour no_signature_info = (Exit, w') ∧
    w_reports w' = w_reports no_signature_info ++ [TBFatal "insert: refused"] ∧
    w_trace w' = w_trace no_signature_info ++ [EvAddSignatureInfo 3%nat (mkSignatureInfo "signer" "v1" "US")] ∧
    w_ticks w' = w_ticks no_signature_info ∧ w_dbs w' = w_dbs no_signature_info.
Proof.
  split; [reflexivity|].
  apply (createSignatureInfo_stops_at_first_failure no_signature_info Background 3%nat time.Hour "insert: refused").
  - reflexivity.
Defined.

Lemma createSignatureInfo_keeps_first_write_witness :
  w_failing no_export_config SAddSignatureInfo = None ∧
  w_failing no_export_config SAddExportConfig = Some "insert: refused" ∧
  w_dbs no_export_config !! 3%nat = Some database.empty ∧
  ∃ w' x' ec,
    createSignatureInfo Background (Some 3%nat) time.Hour no_export_config = (Exit, w') ∧
    w_reports w' = w_reports no_export_config ++ [TBFatal "insert: refused"] ∧
    w_trace w' = w_trace no_export_config ++
      [EvAddSignatureInfo 3%nat (mkSignatureInfo "signer" "v1" "US");
       EvTimeNow; EvTimeNow; EvAddExportConfig 3%nat ec] ∧
    w_ticks w' = S (S (w_ticks no_export_config)) ∧
    w_dbs w' !! 3%nat = Some x' ∧
    db_SignatureInfo x' = db_SignatureInfo database.empty ++ [mkSignatureInfo "signer" "v1" "US"] ∧
    db_ExportConfig x' = db_ExportConfig database.empty ∧
    (∀ d', d' ≠ 3%nat → w_dbs w' !! d' = w_dbs no_export_config !! d').
Proof.
  split; [reflexivity|].
  split; [reflexivity|].
  split; [vm_compute; reflexivity|].
  apply (createSignatureInfo_keeps_first_write no_export_config Background 3%nat time.Hour "insert: refused" database.empty).
  - reflexivity.
  - reflexivity.
  - vm_compute; reflexivity.
Defined.

Lemma export_window_contains_now_witness :
  w_failing with_database SAddSignatureInfo = None ∧
  w_failing with_database SAddExportConfig = None ∧
  (w_clock with_database (w_ticks with_database) ≤ w_clock with_database (S (w_ticks with_database)))%Z ∧
  ∃ w' made ec,
    createSignatureInfo Background (Some 3%nat) time.Hour with_database = (Ret (), w') ∧
    w_trace w' = w_trace with_database ++ made ∧
    last made = Some (EvAddExportConfig 3%nat ec) ∧
    (From ec < w_clock with_database (w_ticks with_database))%Z ∧
    (w_clock with_database (S (w_ticks with_database)) < Thru ec)%Z ∧
    (1 * time.Hour + 2 * time.Second ≤ Thru ec - From ec)%Z.
Proof.
  split; [reflexivity|].
  split; [reflexivity|].
  split; [by vm_compute|].
  apply (export_window_contains_now with_database Background 3%nat time.Hour).
  - reflexivity.
  - reflexivity.
  - by vm_compute.
Defined.

Lemma teardown_cancels_then_closes_witness :
  first_failure (w_failing quiet) setup_steps = None ∧
  ∃ x w' token db w1 w2 w3 dbv,
    NewTestServer wire Background time.Hour quiet = (Ret x, w') ∧
    w_cleanups w' = w_cleanups quiet ++ [HelperCloseDatabase db; CancelToken token] ∧
    run_cleanup (CancelToken token) (set_cleanups [] w') = (Ret (), w1) ∧
    w_tokens w1 !! token = Some true ∧
    w_dbs w1 = w_dbs w' ∧ w_dbs w' !! db = Some dbv ∧ db_closed dbv = false ∧
    run_cleanup (HelperCloseDatabase db) w1 = (Ret (), w2) ∧
    w_trace w2 = w_trace w' ++ [EvDatabaseClose db] ∧
    db_closed <$> w_dbs w2 !! db = Some true ∧
    run_cleanups (rev (w_cleanups quiet)) w2 = (Ret (), w3) ∧
    teardown w' = (Ret (), w3).
Proof.
  split; [reflexivity|].
  apply (teardown_cancels_then_closes wire quiet Background time.Hour).
  - reflexivity.
Defined.

Lemma two_setups_are_independent_witness :
  first_failure (w_failing quiet) setup_steps = None ∧
  ∃ env1 cli1 d1 aa1 w1 g1 env2 cli2 d2 aa2 w2 g2,
    NewTestServer wire Background time.Hour quiet = (Ret (env1, cli1, Some d1), w1) ∧
    NewTestServer wire Background time.Minute w1 = (Ret (env2, cli2, Some d2), w2) ∧
    serverenv.AuthorizedAppProvider env1 = Some aa1 ∧
    serverenv.AuthorizedAppProvider env2 = Some aa2 ∧
    d1 ≠ d2 ∧ aa1 ≠ aa2 ∧
    w_dbs w2 !! d1 = w_dbs w1 !! d1 ∧
    w_providers w2 !! aa1 = w_providers w1 !! aa1 ∧
    w_goroutines w2 = w_goroutines quiet ++ [g1; g2] ∧
    ∃ k1 w3,
      run_cleanup (CancelToken k1) w2 = (Ret (), w3) ∧
      g_ctx g1 = WithCancelOf Background k1 ∧
      context.done (g_ctx g1) w3 = true ∧
      context.done (g_ctx g2) w3 = false.
Proof.
  split; [reflexivity|].
  apply (two_setups_are_independent wire quiet Background time.Hour Background time.Minute).
  - reflexivity.
Defined.

Lemma handlers_share_returned_environment_witness :
  first_failure (w_failing quiet) setup_steps = None ∧
  ∃ env cli db w' g,
    NewTestServer wire Background time.Hour quiet = (Ret (env, cli, db), w') ∧
    w_goroutines w' = w_goroutines quiet ++ [g] ∧
    db = serverenv.Database env ∧
    is_Some (env_authorizedAppProvider env) ∧ is_Some (env_blobstore env) ∧
    is_Some (env_database env) ∧ is_Some (env_keyManager env) ∧
    is_Some (env_secretManager env) ∧
    length (g_mux g) = 5%nat ∧
    ∀ pattern h, (pattern, h) ∈ g_mux g → handler_env h = env.
Proof.
  split; [reflexivity|].
  apply (handlers_share_returned_environment wire quiet Background time.Hour).
  - reflexivity.
Defined.

(** The seeder against a database that is there: the row of the first
    write stays when the second write fails. *)
Example createSignatureInfo_no_export_config :
  let w' := (createSignatureInfo Background (Some 3%nat) time.Hour no_export_config).2 in
  (λ x, (length (db_SignatureInfo x), length (db_ExportConfig x))) <$> w_dbs w' !! 3%nat
  = Some (1%nat, 0%nat) ∧
  w_reports w' = [TBFatal "insert: refused"].
Proof. vm_compute. by split. Qed.

(** The set-up when the authorized application cannot be added: the
    listener was started, and its [stop] is among the cleanups. *)
Example NewTestServer_no_app :
  let w' := (NewTestServer wire Background time.Hour no_app).2 in
  length (w_goroutines w') = 1%nat ∧
  w_cleanups w' = [HelperCloseDatabase 0%nat; CancelToken 0%nat] ∧
  w_reports w' = [TBFatal "add: refused"].
Proof. vm_compute. by repeat split. Qed.

End HarnessMore.
